(** * Estufa: greenhouse controller (Estufa.c)

    A shallow embedding of the control core of [Estufa.c]: the UART receive
    interrupt [on_uart_rx], the 100 ms timer callback [timer_callback] with
    its three moving-average filters and the photoperiod counter, the command
    interpreter [processa_comando], and one pass of the super loop of [main]
    (actuators and telemetry frame).

    Conventions.
    - C integers are [Z]; every assignment to a [uint8_t], [uint16_t] or
      [uint32_t] object goes through [to_uint8], [to_uint16] or [to_uint32].
    - C arrays are lists; an access outside the array has no defined
      behaviour in C and is [None] here, so every function that indexes an
      array lives in the [option] monad.
    - [char] is [ascii]; the command buffer is a [list ascii] of
      [RX_BUFFER_SIZE] cells.
    - The hardware is explicit state: the GPIO output levels, the bytes
      handed to [uart_write_blocking], and the inputs (ADC conversions, UART
      FIFO contents, the millisecond clock) arrive as arguments.
    - An execution interleaves calls of the two handlers and passes of the
      loop; each of them is one step. [watchdog_update] and [sleep_ms] have
      no effect on the state kept here. *)

From Stdlib Require Import ZArith Ascii String List Bool Lia.
From stdpp Require Import base numbers option list strings.

Open Scope Z_scope.

(** ** Machine integers *)

Definition to_uint8 (x : Z) : Z := x mod 2 ^ 8.
Definition to_uint16 (x : Z) : Z := x mod 2 ^ 16.
Definition to_uint32 (x : Z) : Z := x mod 2 ^ 32.

Definition is_uint16 (x : Z) : bool := (0 <=? x) && (x <? 2 ^ 16).
Definition is_uint32 (x : Z) : bool := (0 <=? x) && (x <? 2 ^ 32).

(** ** C arrays with checked indices *)

Definition in_bounds {A} (a : list A) (i : Z) : bool :=
  (0 <=? i) && (i <? Z.of_nat (length a)).

Definition array_get {A} (a : list A) (i : Z) : option A :=
  if in_bounds a i then a !! Z.to_nat i else None.

Definition array_set {A} (a : list A) (i : Z) (v : A) : option (list A) :=
  if in_bounds a i then Some (<[Z.to_nat i := v]> a) else None.

(** ** The part of the C library used by [processa_comando]

    Strings are the characters before the first NUL. [c_str] reads one out
    of a [char] array and fails when the array holds no NUL (the read would
    run past the array). *)

Definition NUL : ascii := Ascii.zero.
Definition char_code (c : ascii) : Z := Z.of_N (N_of_ascii c).
Definition lit (s : string) : list ascii := list_ascii_of_string s.

Fixpoint c_str (a : list ascii) : option (list ascii) :=
  match a with
  | [] => None
  | c :: r => if Ascii.eqb c NUL then Some [] else cons c <$> c_str r
  end.

Fixpoint starts_with (needle hay : list ascii) : bool :=
  match needle, hay with
  | [], _ => true
  | _ :: _, [] => false
  | n :: needle', h :: hay' => Ascii.eqb n h && starts_with needle' hay'
  end.

(** [strstr hay needle]: offset of the first occurrence of [needle] in
    [hay], [None] for the C null pointer. *)
Fixpoint strstr (hay needle : list ascii) : option nat :=
  if starts_with needle hay then Some 0%nat
  else match hay with
       | [] => None
       | _ :: hay' => S <$> strstr hay' needle
       end.

(** [strrchr s c]: offset of the last occurrence of [c] in [s]. *)
Fixpoint strrchr (s : list ascii) (c : ascii) : option nat :=
  match s with
  | [] => None
  | x :: r =>
      match strrchr r c with
      | Some k => Some (S k)
      | None => if Ascii.eqb x c then Some 0%nat else None
      end
  end.

Definition isspace (c : ascii) : bool :=
  (char_code c =? 32) || ((9 <=? char_code c) && (char_code c <=? 13)).

Definition isdigit (c : ascii) : bool :=
  (48 <=? char_code c) && (char_code c <=? 57).

Fixpoint skip_spaces (s : list ascii) : list ascii :=
  match s with
  | c :: r => if isspace c then skip_spaces r else s
  | [] => []
  end.

Fixpoint digits (acc : Z) (s : list ascii) : Z :=
  match s with
  | c :: r => if isdigit c then digits (10 * acc + (char_code c - 48)) r else acc
  | [] => acc
  end.

(** [strtol] in base 10 on a 32-bit [long]: leading white space, an optional
    sign, then the longest run of decimal digits; 0 when there is none; the
    result is clamped to the range of [long]. *)
Definition LONG_MAX : Z := 2 ^ 31 - 1.
Definition LONG_MIN : Z := - 2 ^ 31.

Definition strtol10 (s : list ascii) : Z :=
  let s := skip_spaces s in
  let '(neg, s) :=
    match s with
    | c :: r =>
        if Ascii.eqb c "-" then (true, r)
        else if Ascii.eqb c "+" then (false, r)
        else (false, s)
    | [] => (false, s)
    end in
  let v := digits 0 s in
  let v := if neg then - v else v in
  Z.max LONG_MIN (Z.min LONG_MAX v).

(** On the RP2040 [int] and [long] are both 32 bits wide, and [atoi] is
    [(int) strtol (s, NULL, 10)]. *)
Definition atol (s : list ascii) : Z := strtol10 s.
Definition atoi (s : list ascii) : Z := strtol10 s.

(** ** Hardware definitions *)

Definition FAN_PIN : Z := 6.
Definition PUMP_PIN : Z := 2.
Definition LED_PIN : Z := 9.

Definition AVG_SHIFT_BITS : Z := 5.
Definition AVG_SAMPLES : Z := Z.shiftl 1 AVG_SHIFT_BITS.
Definition RX_BUFFER_SIZE : Z := 100.

(** ** Program state

    The globals of [Estufa.c], grouped as the source groups them. *)

(** Moving-average filter: ring buffers, shared index, running sums and the
    published averages. *)
Record filtro := {
  ldr_buffer : list Z;
  ntc_buffer : list Z;
  umidade_buffer : list Z;
  avg_idx : Z;
  ldr_sum : Z;
  ntc_sum : Z;
  umidade_sum : Z;
  g_ldr_filtrado : Z;
  g_ntc_filtrado : Z;
  g_umidade_filtrada : Z;
}.

(** Control setpoints and photoperiod configuration. *)
Record config := {
  g_umidade_setpoint_raw : Z;
  g_temp_setpoint_raw : Z;
  g_ldr_limiar_raw : Z;
  g_fotoperiodo_ativo : bool;
  g_meta_luz_segundos : Z;
}.

(** UART receive buffer. *)
Record uart_rx := {
  g_rx_buffer : list ascii;
  g_rx_idx : Z;
  g_comando_pronto : bool;
}.

Record state := {
  filt : filtro;
  cfg : config;
  g_segundos_de_luz_hoje : Z;
  g_contador_1s : Z;
  rx : uart_rx;
  gpio : Z -> bool;            (* output level of each pin *)
  ultimo_envio : Z;            (* local of [main] *)
  uart_tx : list (list Z);     (* frames written to the UART, oldest first *)
}.

Definition set_filt (f : filtro) (s : state) : state :=
  {| filt := f; cfg := cfg s;
     g_segundos_de_luz_hoje := g_segundos_de_luz_hoje s;
     g_contador_1s := g_contador_1s s; rx := rx s; gpio := gpio s;
     ultimo_envio := ultimo_envio s; uart_tx := uart_tx s |}.

Definition set_cfg (c : config) (s : state) : state :=
  {| filt := filt s; cfg := c;
     g_segundos_de_luz_hoje := g_segundos_de_luz_hoje s;
     g_contador_1s := g_contador_1s s; rx := rx s; gpio := gpio s;
     ultimo_envio := ultimo_envio s; uart_tx := uart_tx s |}.

Definition set_g_segundos_de_luz_hoje (v : Z) (s : state) : state :=
  {| filt := filt s; cfg := cfg s;
     g_segundos_de_luz_hoje := v;
     g_contador_1s := g_contador_1s s; rx := rx s; gpio := gpio s;
     ultimo_envio := ultimo_envio s; uart_tx := uart_tx s |}.

Definition set_g_contador_1s (v : Z) (s : state) : state :=
  {| filt := filt s; cfg := cfg s;
     g_segundos_de_luz_hoje := g_segundos_de_luz_hoje s;
     g_contador_1s := v; rx := rx s; gpio := gpio s;
     ultimo_envio := ultimo_envio s; uart_tx := uart_tx s |}.

Definition set_rx (r : uart_rx) (s : state) : state :=
  {| filt := filt s; cfg := cfg s;
     g_segundos_de_luz_hoje := g_segundos_de_luz_hoje s;
     g_contador_1s := g_contador_1s s; rx := r; gpio := gpio s;
     ultimo_envio := ultimo_envio s; uart_tx := uart_tx s |}.

Definition set_gpio (g : Z -> bool) (s : state) : state :=
  {| filt := filt s; cfg := cfg s;
     g_segundos_de_luz_hoje := g_segundos_de_luz_hoje s;
     g_contador_1s := g_contador_1s s; rx := rx s; gpio := g;
     ultimo_envio := ultimo_envio s; uart_tx := uart_tx s |}.

Definition set_main (envio : Z) (tx : list (list Z)) (s : state) : state :=
  {| filt := filt s; cfg := cfg s;
     g_segundos_de_luz_hoje := g_segundos_de_luz_hoje s;
     g_contador_1s := g_contador_1s s; rx := rx s; gpio := gpio s;
     ultimo_envio := envio; uart_tx := tx |}.

Definition gpio_get (pin : Z) (s : state) : bool := gpio s pin.

Definition gpio_put (pin : Z) (v : bool) (s : state) : state :=
  set_gpio (fun p => if p =? pin then v else gpio s p) s.

(** ** [on_uart_rx]: the receive interrupt *)

Definition is_terminator (c : ascii) : bool :=
  Ascii.eqb c "010" || Ascii.eqb c "013".

(** One turn of the [while] loop, for the character [c] read by
    [uart_getc]. *)
Definition on_uart_rx_char (c : ascii) (s : state) : option state :=
  let r := rx s in
  if is_terminator c then
    if 0 <? g_rx_idx r then
      buf ← array_set (g_rx_buffer r) (g_rx_idx r) NUL;
      Some (set_rx {| g_rx_buffer := buf; g_rx_idx := 0;
                      g_comando_pronto := true |} s)
    else Some s
  else if g_rx_idx r <? RX_BUFFER_SIZE - 1 then
    buf ← array_set (g_rx_buffer r) (g_rx_idx r) c;
    Some (set_rx {| g_rx_buffer := buf; g_rx_idx := g_rx_idx r + 1;
                    g_comando_pronto := g_comando_pronto r |} s)
  else Some s.

(** The handler drains the FIFO: [fifo] is what [uart_getc] returns while
    [uart_is_readable] holds. *)
Fixpoint on_uart_rx (fifo : list ascii) (s : state) : option state :=
  match fifo with
  | [] => Some s
  | c :: fifo' => s' ← on_uart_rx_char c s; on_uart_rx fifo' s'
  end.

(** ** [timer_callback]: sampling, filtering, light accounting *)

Definition led_ligado (s : state) : bool := gpio_get LED_PIN s.

Definition tem_sol (s : state) : bool :=
  g_ldr_filtrado (filt s) <=? g_ldr_limiar_raw (cfg s).

(** [ldr_raw], [ntc_raw] and [umidade_raw] are the three [adc_read]
    results of this tick. *)
Definition timer_callback (ldr_raw ntc_raw umidade_raw : Z) (s : state)
  : option state :=
  let f := filt s in
  ldr_old ← array_get (ldr_buffer f) (avg_idx f);
  ntc_old ← array_get (ntc_buffer f) (avg_idx f);
  umidade_old ← array_get (umidade_buffer f) (avg_idx f);
  let ldr_sum' := to_uint32 (ldr_sum f - ldr_old + ldr_raw) in
  let ntc_sum' := to_uint32 (ntc_sum f - ntc_old + ntc_raw) in
  let umidade_sum' := to_uint32 (umidade_sum f - umidade_old + umidade_raw) in
  ldr_buffer' ← array_set (ldr_buffer f) (avg_idx f) ldr_raw;
  ntc_buffer' ← array_set (ntc_buffer f) (avg_idx f) ntc_raw;
  umidade_buffer' ← array_set (umidade_buffer f) (avg_idx f) umidade_raw;
  let s :=
    set_filt
      {| ldr_buffer := ldr_buffer';
         ntc_buffer := ntc_buffer';
         umidade_buffer := umidade_buffer';
         avg_idx := Z.rem (avg_idx f + 1) AVG_SAMPLES;
         ldr_sum := ldr_sum';
         ntc_sum := ntc_sum';
         umidade_sum := umidade_sum';
         g_ldr_filtrado := to_uint16 (Z.shiftr ldr_sum' AVG_SHIFT_BITS);
         g_ntc_filtrado := to_uint16 (Z.shiftr ntc_sum' AVG_SHIFT_BITS);
         g_umidade_filtrada :=
           to_uint16 (Z.shiftr umidade_sum' AVG_SHIFT_BITS) |} s in
  let s := set_g_contador_1s (to_uint32 (g_contador_1s s + 1)) s in
  Some
    (if 10 <=? g_contador_1s s then
       let s := set_g_contador_1s 0 s in
       if led_ligado s || tem_sol s then
         set_g_segundos_de_luz_hoje
           (to_uint32 (g_segundos_de_luz_hoje s + 1)) s
       else s
     else s).

(** ** [processa_comando]: the command interpreter *)

Definition not_null {A} (p : option A) : bool :=
  match p with Some _ => true | None => false end.

Definition set_g_umidade_setpoint_raw (v : Z) (c : config) : config :=
  {| g_umidade_setpoint_raw := v;
     g_temp_setpoint_raw := g_temp_setpoint_raw c;
     g_ldr_limiar_raw := g_ldr_limiar_raw c;
     g_fotoperiodo_ativo := g_fotoperiodo_ativo c;
     g_meta_luz_segundos := g_meta_luz_segundos c |}.

Definition set_g_temp_setpoint_raw (v : Z) (c : config) : config :=
  {| g_umidade_setpoint_raw := g_umidade_setpoint_raw c;
     g_temp_setpoint_raw := v;
     g_ldr_limiar_raw := g_ldr_limiar_raw c;
     g_fotoperiodo_ativo := g_fotoperiodo_ativo c;
     g_meta_luz_segundos := g_meta_luz_segundos c |}.

Definition set_g_ldr_limiar_raw (v : Z) (c : config) : config :=
  {| g_umidade_setpoint_raw := g_umidade_setpoint_raw c;
     g_temp_setpoint_raw := g_temp_setpoint_raw c;
     g_ldr_limiar_raw := v;
     g_fotoperiodo_ativo := g_fotoperiodo_ativo c;
     g_meta_luz_segundos := g_meta_luz_segundos c |}.

Definition set_g_fotoperiodo_ativo (v : bool) (c : config) : config :=
  {| g_umidade_setpoint_raw := g_umidade_setpoint_raw c;
     g_temp_setpoint_raw := g_temp_setpoint_raw c;
     g_ldr_limiar_raw := g_ldr_limiar_raw c;
     g_fotoperiodo_ativo := v;
     g_meta_luz_segundos := g_meta_luz_segundos c |}.

Definition set_g_meta_luz_segundos (v : Z) (c : config) : config :=
  {| g_umidade_setpoint_raw := g_umidade_setpoint_raw c;
     g_temp_setpoint_raw := g_temp_setpoint_raw c;
     g_ldr_limiar_raw := g_ldr_limiar_raw c;
     g_fotoperiodo_ativo := g_fotoperiodo_ativo c;
     g_meta_luz_segundos := v |}.

(** [memset (a, v, n)] on a [char] array. *)
Definition memset (a : list ascii) (v : ascii) (n : Z) : option (list ascii) :=
  if (0 <=? n) && (n <=? Z.of_nat (length a))
  then Some (replicate (Z.to_nat n) v ++ drop (Z.to_nat n) a)
  else None.

(** The text after the last comma of [cmd]: [strrchr (cmd, ',') + 1], or
    [None] when [strrchr] returns the null pointer. *)
Definition valor_str (cmd : list ascii) : option (list ascii) :=
  (fun k => drop (S k) cmd) <$> strrchr cmd ",".

(** The [if]/[else if] chain, on the string [cmd] held by [g_rx_buffer]. *)
Definition interpreta (cmd : list ascii) (s : state) : state :=
  if not_null (strstr cmd (lit "SET,HUMID,")) then
    match valor_str cmd with
    | Some v => set_cfg (set_g_umidade_setpoint_raw (to_uint16 (atoi v)) (cfg s)) s
    | None => s
    end
  else if not_null (strstr cmd (lit "SET,TEMP,")) then
    match valor_str cmd with
    | Some v => set_cfg (set_g_temp_setpoint_raw (to_uint16 (atoi v)) (cfg s)) s
    | None => s
    end
  else if not_null (strstr cmd (lit "SET,LDR,")) then
    match valor_str cmd with
    | Some v => set_cfg (set_g_ldr_limiar_raw (to_uint16 (atoi v)) (cfg s)) s
    | None => s
    end
  else if not_null (strstr cmd (lit "SET,FOTO,")) then
    match valor_str cmd with
    | Some v =>
        set_cfg (set_g_fotoperiodo_ativo (to_uint16 (atoi v) =? 1) (cfg s)) s
    | None => s
    end
  else if not_null (strstr cmd (lit "SET,META_LUZ,")) then
    match valor_str cmd with
    | Some v => set_cfg (set_g_meta_luz_segundos (to_uint32 (atol v)) (cfg s)) s
    | None => s
    end
  else if not_null (strstr cmd (lit "RESET,TIMER_LUZ")) then
    set_g_segundos_de_luz_hoje 0 s
  else s.

Definition processa_comando (s : state) : option state :=
  let s :=
    set_rx {| g_rx_buffer := g_rx_buffer (rx s); g_rx_idx := g_rx_idx (rx s);
              g_comando_pronto := false |} s in
  cmd ← c_str (g_rx_buffer (rx s));
  let s := interpreta cmd s in
  buf ← memset (g_rx_buffer (rx s)) NUL RX_BUFFER_SIZE;
  Some (set_rx {| g_rx_buffer := buf; g_rx_idx := g_rx_idx (rx s);
                  g_comando_pronto := g_comando_pronto (rx s) |} s).

(** ** One pass of the super loop of [main] *)

(** Control logic: pump, fan and grow light. *)
Definition atuadores (s : state) : state :=
  let s :=
    if g_umidade_filtrada (filt s) >? g_umidade_setpoint_raw (cfg s)
    then gpio_put PUMP_PIN true s else gpio_put PUMP_PIN false s in
  let s :=
    if g_ntc_filtrado (filt s) <? g_temp_setpoint_raw (cfg s)
    then gpio_put FAN_PIN true s else gpio_put FAN_PIN false s in
  if g_fotoperiodo_ativo (cfg s)
     && (g_segundos_de_luz_hoje s <? g_meta_luz_segundos (cfg s))
  then
    if g_ldr_filtrado (filt s) >? g_ldr_limiar_raw (cfg s)
    then gpio_put LED_PIN true s
    else gpio_put LED_PIN false s
  else gpio_put LED_PIN false s.

(** The 13-byte telemetry frame [packet]. *)
Definition packet (s : state) : list Z :=
  let p :=
    [ to_uint8 (Z.land (Z.shiftr (g_ldr_filtrado (filt s)) 8) 255);
      to_uint8 (Z.land (g_ldr_filtrado (filt s)) 255);
      to_uint8 (Z.land (Z.shiftr (g_ntc_filtrado (filt s)) 8) 255);
      to_uint8 (Z.land (g_ntc_filtrado (filt s)) 255);
      to_uint8 (Z.land (Z.shiftr (g_umidade_filtrada (filt s)) 8) 255);
      to_uint8 (Z.land (g_umidade_filtrada (filt s)) 255);
      (if gpio_get LED_PIN s then 1 else 0);
      to_uint8 (Z.land (Z.shiftr (g_segundos_de_luz_hoje s) 24) 255);
      to_uint8 (Z.land (Z.shiftr (g_segundos_de_luz_hoje s) 16) 255);
      to_uint8 (Z.land (Z.shiftr (g_segundos_de_luz_hoje s) 8) 255);
      to_uint8 (Z.land (g_segundos_de_luz_hoje s) 255) ] in
  let soma := fold_left (fun soma b => to_uint8 (soma + b)) (take 11 p) 0 in
  p ++ [soma; 170].

(** Telemetry, gated on the millisecond clock [agora]. *)
Definition telemetria (agora : Z) (s : state) : state :=
  if 1000 <=? to_uint32 (agora - ultimo_envio s)
  then set_main agora (uart_tx s ++ [packet s]) s
  else s.

Definition main_loop (agora : Z) (s : state) : option state :=
  s ← (if g_comando_pronto (rx s) then processa_comando s else Some s);
  Some (telemetria agora (atuadores s)).

(** The state when [main] enters its loop: globals at their initialisers,
    the three outputs low, the ring buffers cleared. *)
Definition main_init : state :=
  {| filt :=
       {| ldr_buffer := replicate (Z.to_nat AVG_SAMPLES) 0;
          ntc_buffer := replicate (Z.to_nat AVG_SAMPLES) 0;
          umidade_buffer := replicate (Z.to_nat AVG_SAMPLES) 0;
          avg_idx := 0;
          ldr_sum := 0; ntc_sum := 0; umidade_sum := 0;
          g_ldr_filtrado := 0; g_ntc_filtrado := 0; g_umidade_filtrada := 0 |};
     cfg :=
       {| g_umidade_setpoint_raw := 3000;
          g_temp_setpoint_raw := 1600;
          g_ldr_limiar_raw := 2000;
          g_fotoperiodo_ativo := false;
          g_meta_luz_segundos := 14 * 3600 |};
     g_segundos_de_luz_hoje := 0;
     g_contador_1s := 0;
     rx := {| g_rx_buffer := replicate (Z.to_nat RX_BUFFER_SIZE) NUL;
              g_rx_idx := 0;
              g_comando_pronto := false |};
     gpio := fun _ => false;
     ultimo_envio := 0;
     uart_tx := [] |}.

(** ** Executions

    An execution is a sequence of handler invocations and loop passes, each
    carrying what it reads from the hardware. *)
Inductive event :=
| Timer (ldr_raw ntc_raw umidade_raw : Z)
| Rx (fifo : list ascii)
| Loop (agora : Z).

Definition step (e : event) (s : state) : option state :=
  match e with
  | Timer l n u => timer_callback l n u s
  | Rx fifo => on_uart_rx fifo s
  | Loop agora => main_loop agora s
  end.

Fixpoint run (evs : list event) (s : state) : option state :=
  match evs with
  | [] => Some s
  | e :: evs' => s' ← step e s; run evs' s'
  end.

(** The inputs have the types the C code gives them: ADC results are
    [uint16_t], the clock is [uint32_t]. *)
Definition event_ok (e : event) : bool :=
  match e with
  | Timer l n u => is_uint16 l && is_uint16 n && is_uint16 u
  | Rx _ => true
  | Loop agora => is_uint32 agora
  end.

(** ** Invariants *)

Definition soma (l : list Z) : Z := foldr Z.add 0 l.

(** One filter channel: a full ring of [uint16_t] samples, the running sum
    equal to the sum of the ring, the published value equal to the sum
    shifted right. *)
Definition canal_inv (buf : list Z) (sum filtrado : Z) : bool :=
  (Z.of_nat (length buf) =? AVG_SAMPLES)
  && forallb is_uint16 buf
  && (sum =? soma buf)
  && (filtrado =? Z.shiftr sum AVG_SHIFT_BITS).

Definition filtro_inv (f : filtro) : bool :=
  (0 <=? avg_idx f) && (avg_idx f <? AVG_SAMPLES)
  && canal_inv (ldr_buffer f) (ldr_sum f) (g_ldr_filtrado f)
  && canal_inv (ntc_buffer f) (ntc_sum f) (g_ntc_filtrado f)
  && canal_inv (umidade_buffer f) (umidade_sum f) (g_umidade_filtrada f).

(** The receive buffer: [RX_BUFFER_SIZE] cells, the cursor below the last
    cell or on it, and a NUL in the last cell. *)
Definition rx_inv (r : uart_rx) : bool :=
  (Z.of_nat (length (g_rx_buffer r)) =? RX_BUFFER_SIZE)
  && (0 <=? g_rx_idx r) && (g_rx_idx r <=? RX_BUFFER_SIZE - 1)
  && bool_decide (g_rx_buffer r !! 99%nat = Some NUL).

Definition inv (s : state) : bool := filtro_inv (filt s) && rx_inv (rx s).

(** The samples a channel was fed along an execution, [amostra] choosing
    among the three ADC results of a tick. *)
Definition amostras (amostra : Z -> Z -> Z -> Z) (evs : list event) : list Z :=
  omap (fun e => match e with
                 | Timer l n u => Some (amostra l n u)
                 | _ => None
                 end) evs.

Definition ldr_amostras : list event -> list Z := amostras (fun l _ _ => l).
Definition ntc_amostras : list event -> list Z := amostras (fun _ n _ => n).
Definition umidade_amostras : list event -> list Z := amostras (fun _ _ u => u).

(** The last [n] entries of a list. *)
Definition ultimas {A} (n : nat) (l : list A) : list A :=
  drop (length l - n) l.

(** The averaging window after the samples [amostras]: the last 32 entries
    of the zero-initialised ring followed by the samples. *)
Definition janela (amostras : list Z) : list Z :=
  ultimas 32 (replicate 32 0 ++ amostras).

(** [ring buf idx w]: the ring [buf] with write index [idx] holds the
    window [w], oldest sample at [idx]. *)
Definition ring (buf : list Z) (idx : Z) (w : list Z) : Prop :=
  exists newer older,
    buf = newer ++ older /\ w = older ++ newer /\ Z.of_nat (length newer) = idx.

(** ** Vocabulary of the statements *)

(** *** Receive interrupt *)

(** The receive state after one character, written without the bounds
    checks: the cases of the handler's [if]/[else if]. *)
Definition rx_apos_char (c : ascii) (r : uart_rx) : uart_rx :=
  if is_terminator c then
    if 0 <? g_rx_idx r then
      {| g_rx_buffer := <[Z.to_nat (g_rx_idx r) := NUL]> (g_rx_buffer r);
         g_rx_idx := 0; g_comando_pronto := true |}
    else r
  else if g_rx_idx r <? 99 then
    {| g_rx_buffer := <[Z.to_nat (g_rx_idx r) := c]> (g_rx_buffer r);
       g_rx_idx := g_rx_idx r + 1; g_comando_pronto := g_comando_pronto r |}
  else r.

Definition rx_apos (fifo : list ascii) (r : uart_rx) : uart_rx :=
  fold_left (fun r c => rx_apos_char c r) fifo r.

(** Outside [rx] nothing moves. *)
Definition mesmo_fora_rx (s s' : state) : Prop :=
  filt s' = filt s /\ cfg s' = cfg s
  /\ g_segundos_de_luz_hoje s' = g_segundos_de_luz_hoje s
  /\ g_contador_1s s' = g_contador_1s s /\ gpio s' = gpio s
  /\ ultimo_envio s' = ultimo_envio s /\ uart_tx s' = uart_tx s.

(** A line is a run of characters none of which is a terminator. *)
Definition sem_terminador (linha : list ascii) : bool :=
  forallb (fun c => negb (is_terminator c)) linha.

(** The four cases of one turn of the handler's loop. A character is
    written only through [array_set], at the cursor. *)
Definition casos_do_char (c : ascii) (s s1 : state) : Prop :=
  (is_terminator c = false -> g_rx_idx (rx s) < RX_BUFFER_SIZE - 1 ->
   array_set (g_rx_buffer (rx s)) (g_rx_idx (rx s)) c = Some (g_rx_buffer (rx s1))
   /\ g_rx_idx (rx s1) = g_rx_idx (rx s) + 1
   /\ g_comando_pronto (rx s1) = g_comando_pronto (rx s))
  /\ (is_terminator c = false -> RX_BUFFER_SIZE - 1 <= g_rx_idx (rx s) -> s1 = s)
  /\ (is_terminator c = true -> 0 < g_rx_idx (rx s) ->
      array_set (g_rx_buffer (rx s)) (g_rx_idx (rx s)) NUL
      = Some (g_rx_buffer (rx s1))
      /\ g_rx_idx (rx s1) = 0 /\ g_comando_pronto (rx s1) = true)
  /\ (is_terminator c = true -> g_rx_idx (rx s) <= 0 -> s1 = s).



(** *** Filter and photoperiod *)

(** What the window property says of one channel: the running sum is the
    sum of the 32 cells of the ring, the ring holds the window, and the
    published value is the sum of the last 32 raw samples fed (of all of
    them while fewer than 32 were fed) shifted right by 5, that is divided
    by 32 and rounded down. *)
Definition media_da_janela
  (buf : list Z) (idx sum filtrado : Z) (amostras : list Z) : Prop :=
  length buf = 32%nat
  /\ sum = soma buf
  /\ ring buf idx (janela amostras)
  /\ filtrado = Z.shiftr (soma (ultimas 32 amostras)) AVG_SHIFT_BITS
  /\ filtrado = soma (ultimas 32 amostras) / 32.

(** A tick with its three ADC results. *)
Definition tick (a : Z * Z * Z) : event :=
  let '(l, n, u) := a in Timer l n u.

(** *** Commands *)

(** The state [processa_comando] hands to [interpreta]: the same with the
    ready flag cleared. *)
Definition sem_pronto (s : state) : state :=
  set_rx {| g_rx_buffer := g_rx_buffer (rx s); g_rx_idx := g_rx_idx (rx s);
            g_comando_pronto := false |} s.

(** The six patterns [processa_comando] searches for, in its order. *)
Definition padroes : list (list ascii) :=
  [lit "SET,HUMID,"; lit "SET,TEMP,"; lit "SET,LDR,"; lit "SET,FOTO,";
   lit "SET,META_LUZ,"; lit "RESET,TIMER_LUZ"].

(** [cmd] contains at least one of the patterns. *)
Definition reconhecido (cmd : list ascii) : bool :=
  existsb (fun p => not_null (strstr cmd p)) padroes.

(** The command grammar as the specification words it, for comparison with
    the code: [SET,<FIELD>,<int>] for one of the five fields, the value a
    non-empty run of decimal digits, or [RESET,TIMER_LUZ]. *)
Definition inteiro (v : list ascii) : bool :=
  match v with [] => false | _ :: _ => forallb isdigit v end.

Definition campos : list string :=
  ["HUMID"; "TEMP"; "LDR"; "FOTO"; "META_LUZ"]%string.

Definition bem_formado (cmd : list ascii) : bool :=
  bool_decide (cmd = lit "RESET,TIMER_LUZ")
  || existsb (fun campo =>
                let p := lit "SET," ++ lit campo ++ lit "," in
                starts_with p cmd && inteiro (drop (length p) cmd))
       campos.

(** The claim C5 as worded, at one state [s]: whenever the line in the
    buffer is malformed or contains no pattern, processing it leaves the
    configuration and the light counter as they were. *)
Definition ignora_malformado (s : state) : Prop :=
  forall cmd s',
    c_str (g_rx_buffer (rx s)) = Some cmd ->
    bem_formado cmd = false \/ reconhecido cmd = false ->
    processa_comando s = Some s' ->
    cfg s' = cfg s /\ g_segundos_de_luz_hoje s' = g_segundos_de_luz_hoje s.

(** *** Concrete states and executions *)

Definition LF : ascii := "010".

(** The state an execution from [main_init] ends in. *)
Definition apos (evs : list event) : state :=
  default main_init (run evs main_init).

(** The state in which the line [linha] has just been received. *)
Definition recebido (linha : string) : state := apos [Rx (lit linha ++ [LF])].

(** [main_init] with the three filters settled on [l], [n] and [u]. *)
Definition filtrado_em (l n u : Z) : state :=
  set_filt
    {| ldr_buffer := replicate 32 l;
       ntc_buffer := replicate 32 n;
       umidade_buffer := replicate 32 u;
       avg_idx := 0;
       ldr_sum := 32 * l; ntc_sum := 32 * n; umidade_sum := 32 * u;
       g_ldr_filtrado := l;
       g_ntc_filtrado := n;
       g_umidade_filtrada := u |} main_init.

Definition exemplo_c1 : list event :=
  repeat (Timer 100 200 300) 20
  ++ [Rx (lit "SET,LDR,50"); Loop 1200]
  ++ repeat (Timer 4095 7 65535) 15.

Definition exemplo_c2 : state :=
  set_g_segundos_de_luz_hoje 90000
    (gpio_put LED_PIN true (filtrado_em 1000 2000 3000)).

Definition exemplo_c4 : state :=
  set_cfg (set_g_fotoperiodo_ativo true (cfg main_init)) (filtrado_em 3000 0 0).

Definition com_umidade (setpoint v : Z) : state :=
  set_cfg (set_g_umidade_setpoint_raw setpoint (cfg main_init))
    (filtrado_em 0 0 v).

Definition exemplo_c9 : state :=
  apos (repeat (Timer 10 10 10) 25 ++ [Rx (lit "RESET,TIMER_LUZ" ++ [LF])]).

Definition exemplo_c10 : list event :=
  [Rx (lit "SET,LDR,1800" ++ [LF]); Timer 1 2 3; Loop 40].

(** *** Counting, frames and values *)

(** The number of timer ticks of an execution. *)
Fixpoint n_ticks (evs : list event) : Z :=
  match evs with
  | [] => 0
  | Timer _ _ _ :: evs' => 1 + n_ticks evs'
  | _ :: evs' => n_ticks evs'
  end.

(** A frame as a receiver checks it: 13 bytes, the twelfth the sum of the
    first eleven modulo 256, the last the end marker. *)
Definition quadro_ok (q : list Z) : bool :=
  (length q =? 13)%nat
  && forallb (fun b => (0 <=? b) && (b <? 256)) q
  && bool_decide (q !! 11%nat = Some (soma (take 11 q) mod 256))
  && bool_decide (q !! 12%nat = Some 0xAA).

(** The reading a receiver makes of a frame: big-endian fields, after the
    checksum and the end marker have been checked. *)
Definition decodifica (q : list Z) : option (Z * Z * Z * bool * Z) :=
  match q with
  | [l1; l0; n1; n0; u1; u0; led; s3; s2; s1; s0; soma_q; fim] =>
      if (fim =? 0xAA)
         && (soma_q =? (l1 + l0 + n1 + n0 + u1 + u0 + led
                        + s3 + s2 + s1 + s0) mod 256)
      then Some (l1 * 256 + l0, n1 * 256 + n0, u1 * 256 + u0,
                 negb (led =? 0),
                 ((s3 * 256 + s2) * 256 + s1) * 256 + s0)
      else None
  | _ => None
  end.

(** The number a run of decimal digits writes. *)
Definition valor_decimal (v : list ascii) : Z :=
  fold_left (fun acc c => 10 * acc + (char_code c - 48)) v 0.

Definition sem_virgula (v : list ascii) : bool :=
  forallb (fun c => negb (Ascii.eqb c ",")) v.

Definition sem_nul (v : list ascii) : bool :=
  forallb (fun c => negb (Ascii.eqb c NUL)) v.

(** A text [strtol] finds no number in: empty, or starting with a
    character that is neither white space, nor a sign, nor a digit. *)
Definition sem_numero (v : list ascii) : bool :=
  match v with
  | [] => true
  | c :: _ =>
      negb (isdigit c) && negb (isspace c)
      && negb (Ascii.eqb c "-") && negb (Ascii.eqb c "+")
  end.

Definition so_terminadores (fifo : list ascii) : bool :=
  forallb is_terminator fifo.

(** The five fields a [SET] command addresses, the pattern of each, and
    what storing the converted value [n] in one of them does: the casts of
    the five assignments of [processa_comando]. *)
Inductive campo_set := HUMID | TEMP | LDR | FOTO | META_LUZ.

Definition padrao_de (f : campo_set) : list ascii :=
  match f with
  | HUMID => lit "SET,HUMID,"
  | TEMP => lit "SET,TEMP,"
  | LDR => lit "SET,LDR,"
  | FOTO => lit "SET,FOTO,"
  | META_LUZ => lit "SET,META_LUZ,"
  end.

Definition grava (f : campo_set) (n : Z) (c : config) : config :=
  match f with
  | HUMID => set_g_umidade_setpoint_raw (to_uint16 n) c
  | TEMP => set_g_temp_setpoint_raw (to_uint16 n) c
  | LDR => set_g_ldr_limiar_raw (to_uint16 n) c
  | FOTO => set_g_fotoperiodo_ativo (to_uint16 n =? 1) c
  | META_LUZ => set_g_meta_luz_segundos (to_uint32 n) c
  end.

(** Closed goals are settled by evaluation. *)
Ltac calcula := vm_compute; reflexivity.

(** ** Machine-integer and array lemmas *)

Lemma to_uint32_small x : 0 <= x < 2 ^ 32 -> to_uint32 x = x.
Proof. intros H. unfold to_uint32. apply Z.mod_small. exact H. Qed.

Lemma to_uint16_small x : 0 <= x < 2 ^ 16 -> to_uint16 x = x.
Proof. intros H. unfold to_uint16. apply Z.mod_small. exact H. Qed.

Lemma is_uint16_spec x : is_uint16 x = true <-> 0 <= x < 2 ^ 16.
Proof. unfold is_uint16. rewrite andb_true_iff. lia. Qed.

Lemma in_bounds_spec {A} (a : list A) i :
  in_bounds a i = true <-> 0 <= i < Z.of_nat (length a).
Proof. unfold in_bounds. rewrite andb_true_iff. lia. Qed.

Lemma array_get_Some {A} (a : list A) i :
  0 <= i < Z.of_nat (length a) ->
  exists v, array_get a i = Some v /\ a !! Z.to_nat i = Some v.
Proof.
  intros H. unfold array_get.
  rewrite (proj2 (in_bounds_spec a i) H).
  destruct (lookup_lt_is_Some_2 a (Z.to_nat i)) as [v Hv]; [lia|].
  exists v. split; assumption.
Qed.

Lemma array_set_Some {A} (a : list A) i v :
  0 <= i < Z.of_nat (length a) ->
  array_set a i v = Some (<[Z.to_nat i := v]> a).
Proof.
  intros H. unfold array_set. now rewrite (proj2 (in_bounds_spec a i) H).
Qed.

Lemma soma_app l1 l2 : soma (l1 ++ l2) = soma l1 + soma l2.
Proof. unfold soma. induction l1 as [|x l1 IH]; simpl; lia. Qed.

Lemma soma_uint16 l :
  forallb is_uint16 l = true -> 0 <= soma l <= (2 ^ 16 - 1) * Z.of_nat (length l).
Proof.
  induction l as [|x l IH]; simpl; [lia|].
  rewrite andb_true_iff, is_uint16_spec. intros [Hx Hl].
  specialize (IH Hl). change (soma (x :: l)) with (x + soma l). lia.
Qed.

Lemma soma_insert l i old v :
  l !! i = Some old -> soma (<[i := v]> l) = soma l - old + v.
Proof.
  revert i. induction l as [|x l IH]; intros [|i] H; simpl in *; try discriminate.
  - injection H as ->. change (soma (v :: l)) with (v + soma l).
    change (soma (old :: l)) with (old + soma l). lia.
  - change (soma (x :: <[i:=v]> l)) with (x + soma (<[i:=v]> l)).
    change (soma (x :: l)) with (x + soma l). rewrite (IH i H). lia.
Qed.

Lemma forallb_insert {A} (p : A -> bool) l i v :
  forallb p l = true -> p v = true -> forallb p (<[i := v]> l) = true.
Proof.
  revert i. induction l as [|x l IH]; intros [|i]; simpl; auto;
    rewrite !andb_true_iff; intros [Hx Hl] Hv; auto.
Qed.

(** ** The ring buffer holds the window *)

Lemma ring_soma buf idx w : ring buf idx w -> soma buf = soma w.
Proof.
  intros (newer & older & -> & -> & _). rewrite !soma_app. lia.
Qed.

Lemma ring_init : ring (replicate 32 0) 0 (janela []).
Proof. exists [], (replicate 32 0). repeat split. Qed.

Lemma ring_step buf idx w raw :
  ring buf idx w -> length buf = 32%nat -> 0 <= idx < 32 ->
  ring (<[Z.to_nat idx := raw]> buf) (Z.rem (idx + 1) 32) (drop 1 w ++ [raw]).
Proof.
  intros (newer & older & -> & -> & <-) Hlen Hidx.
  rewrite length_app in Hlen.
  destruct older as [|o older]; [simpl in Hlen; lia|].
  rewrite Nat2Z.id.
  replace (<[length newer := raw]> (newer ++ o :: older))
    with (newer ++ raw :: older)
    by (symmetry; rewrite insert_app_r_alt by lia;
        now rewrite Nat.sub_diag).
  simpl in Hlen. simpl drop. rewrite drop_0.
  destruct older as [|o' older].
  - exists [], (newer ++ [raw]). simpl in *.
    rewrite app_nil_r. repeat split.
    replace (Z.of_nat (length newer) + 1) with 32 by lia. reflexivity.
  - exists (newer ++ [raw]), (o' :: older).
    rewrite <- !app_assoc. simpl. repeat split.
    rewrite length_app. simpl in *.
    rewrite Z.rem_small by lia. lia.
Qed.

Lemma ultimas_all {A} (n : nat) (l : list A) : length l = n -> ultimas n l = l.
Proof. intros <-. unfold ultimas. now rewrite Nat.sub_diag. Qed.

Lemma ultimas_app {A} (n : nat) (l1 l2 : list A) :
  (n <= length l2)%nat -> ultimas n (l1 ++ l2) = ultimas n l2.
Proof.
  intros H. unfold ultimas. rewrite length_app, drop_app.
  rewrite drop_ge by lia. simpl. f_equal. lia.
Qed.

(** ** [timer_callback] keeps the filter invariant *)

Lemma canal_inv_spec buf sum filtrado :
  canal_inv buf sum filtrado = true <->
  length buf = 32%nat /\ forallb is_uint16 buf = true
  /\ sum = soma buf /\ filtrado = Z.shiftr sum 5.
Proof.
  unfold canal_inv, AVG_SAMPLES, AVG_SHIFT_BITS.
  change (Z.shiftl 1 5) with 32.
  rewrite !andb_true_iff, !Z.eqb_eq. intuition lia.
Qed.

Lemma canal_step buf sum filtrado idx raw :
  canal_inv buf sum filtrado = true -> 0 <= idx < 32 -> is_uint16 raw = true ->
  exists old,
    array_get buf idx = Some old
    /\ array_set buf idx raw = Some (<[Z.to_nat idx := raw]> buf)
    /\ to_uint32 (sum - old + raw) = soma (<[Z.to_nat idx := raw]> buf)
    /\ canal_inv (<[Z.to_nat idx := raw]> buf)
         (to_uint32 (sum - old + raw))
         (to_uint16 (Z.shiftr (to_uint32 (sum - old + raw)) AVG_SHIFT_BITS))
       = true.
Proof.
  intros Hc Hidx Hraw.
  apply canal_inv_spec in Hc. destruct Hc as (Hlen & Hall & -> & _).
  destruct (array_get_Some buf idx) as (old & Hget & Hlook); [lia|].
  exists old. split; [exact Hget|]. split; [apply array_set_Some; lia|].
  pose proof (soma_insert buf (Z.to_nat idx) old raw Hlook) as Hs.
  pose proof (forallb_insert is_uint16 buf (Z.to_nat idx) raw Hall Hraw) as Hall'.
  pose proof (soma_uint16 _ Hall') as Hb.
  rewrite length_insert, Hlen in Hb.
  assert (Hsum : to_uint32 (soma buf - old + raw)
                 = soma (<[Z.to_nat idx := raw]> buf)).
  { rewrite <- Hs. apply to_uint32_small. lia. }
  split; [exact Hsum|].
  apply canal_inv_spec. rewrite length_insert. repeat split; try assumption.
  unfold AVG_SHIFT_BITS. rewrite Hsum. apply to_uint16_small.
  rewrite Z.shiftr_div_pow2 by lia.
  split; [apply Z.div_pos; lia|].
  apply Z.div_lt_upper_bound; lia.
Qed.

Lemma filtro_inv_spec f :
  filtro_inv f = true <->
  0 <= avg_idx f < 32
  /\ canal_inv (ldr_buffer f) (ldr_sum f) (g_ldr_filtrado f) = true
  /\ canal_inv (ntc_buffer f) (ntc_sum f) (g_ntc_filtrado f) = true
  /\ canal_inv (umidade_buffer f) (umidade_sum f) (g_umidade_filtrada f) = true.
Proof.
  unfold filtro_inv, AVG_SAMPLES, AVG_SHIFT_BITS.
  change (Z.shiftl 1 5) with 32. rewrite !andb_true_iff. intuition lia.
Qed.

Lemma inv_spec s : inv s = true <-> filtro_inv (filt s) = true /\ rx_inv (rx s) = true.
Proof. unfold inv. apply andb_true_iff. Qed.

Lemma rem_idx_range idx : 0 <= idx < 32 -> 0 <= Z.rem (idx + 1) 32 < 32.
Proof.
  intros H. destruct (Z.eq_dec idx 31) as [->|Hne]; [now compute|].
  rewrite Z.rem_small by lia. lia.
Qed.

(** What one call of [timer_callback] does to a state that satisfies the
    invariant: it succeeds, overwrites the slot at [avg_idx] in each ring,
    keeps the invariant, touches nothing outside the filter and the two
    photoperiod counters, and counts a lit second on every tenth tick. *)
Lemma timer_callback_spec l n u s :
  inv s = true -> event_ok (Timer l n u) = true ->
  exists s',
    timer_callback l n u s = Some s'
    /\ inv s' = true
    /\ ldr_buffer (filt s') = <[Z.to_nat (avg_idx (filt s)) := l]> (ldr_buffer (filt s))
    /\ ntc_buffer (filt s') = <[Z.to_nat (avg_idx (filt s)) := n]> (ntc_buffer (filt s))
    /\ umidade_buffer (filt s')
       = <[Z.to_nat (avg_idx (filt s)) := u]> (umidade_buffer (filt s))
    /\ avg_idx (filt s') = Z.rem (avg_idx (filt s) + 1) 32
    /\ cfg s' = cfg s /\ rx s' = rx s /\ gpio s' = gpio s
    /\ ultimo_envio s' = ultimo_envio s /\ uart_tx s' = uart_tx s
    /\ g_contador_1s s'
       = (if 10 <=? to_uint32 (g_contador_1s s + 1) then 0
          else to_uint32 (g_contador_1s s + 1))
    /\ g_segundos_de_luz_hoje s'
       = (if (10 <=? to_uint32 (g_contador_1s s + 1))
             && (gpio s LED_PIN
                 || (g_ldr_filtrado (filt s') <=? g_ldr_limiar_raw (cfg s)))
          then to_uint32 (g_segundos_de_luz_hoje s + 1)
          else g_segundos_de_luz_hoje s).
Proof.
  intros Hinv Hev.
  apply inv_spec in Hinv. destruct Hinv as [Hf Hrx].
  apply filtro_inv_spec in Hf. destruct Hf as (Hidx & Hl & Hn & Hu).
  simpl in Hev. rewrite !andb_true_iff in Hev. destruct Hev as [[Hl16 Hn16] Hu16].
  destruct (canal_step _ _ _ _ l Hl Hidx Hl16) as (lo & Hlg & Hls & _ & Hl').
  destruct (canal_step _ _ _ _ n Hn Hidx Hn16) as (no & Hng & Hns & _ & Hn').
  destruct (canal_step _ _ _ _ u Hu Hidx Hu16) as (uo & Hug & Hus & _ & Hu').
  unfold timer_callback. rewrite Hlg, Hng, Hug, Hls, Hns, Hus. simpl.
  eexists. split; [reflexivity|].
  assert (Hf' : forall c g,
    filtro_inv
      {| ldr_buffer := <[Z.to_nat (avg_idx (filt s)) := l]> (ldr_buffer (filt s));
         ntc_buffer := <[Z.to_nat (avg_idx (filt s)) := n]> (ntc_buffer (filt s));
         umidade_buffer :=
           <[Z.to_nat (avg_idx (filt s)) := u]> (umidade_buffer (filt s));
         avg_idx := Z.rem (avg_idx (filt s) + 1) AVG_SAMPLES;
         ldr_sum := to_uint32 (ldr_sum (filt s) - lo + l);
         ntc_sum := to_uint32 (ntc_sum (filt s) - no + n);
         umidade_sum := to_uint32 (umidade_sum (filt s) - uo + u);
         g_ldr_filtrado :=
           to_uint16 (Z.shiftr (to_uint32 (ldr_sum (filt s) - lo + l)) AVG_SHIFT_BITS);
         g_ntc_filtrado :=
           to_uint16 (Z.shiftr (to_uint32 (ntc_sum (filt s) - no + n)) AVG_SHIFT_BITS);
         g_umidade_filtrada :=
           to_uint16
             (Z.shiftr (to_uint32 (umidade_sum (filt s) - uo + u)) AVG_SHIFT_BITS)
      |} = c -> g = true -> c && g = true).
  { intros c g <- ->. rewrite andb_true_r. apply filtro_inv_spec. simpl.
    split; [apply rem_idx_range; exact Hidx|]. now repeat split. }
  unfold led_ligado, tem_sol, gpio_get.
  destruct (10 <=? to_uint32 (g_contador_1s s + 1)); simpl;
    [destruct (gpio s LED_PIN
               || (to_uint16 (Z.shiftr (to_uint32 (ldr_sum (filt s) - lo + l))
                                AVG_SHIFT_BITS)
                   <=? g_ldr_limiar_raw (cfg s))) eqn:Hluz; simpl|];
    (split; [unfold inv; simpl; eapply Hf'; [reflexivity|exact Hrx]|]);
    repeat split; simpl; rewrite ?Hluz; reflexivity.
Qed.

(** ** [on_uart_rx] keeps the buffer invariant *)

Lemma rx_inv_spec r :
  rx_inv r = true <->
  length (g_rx_buffer r) = 100%nat /\ 0 <= g_rx_idx r <= 99
  /\ g_rx_buffer r !! 99%nat = Some NUL.
Proof.
  unfold rx_inv, RX_BUFFER_SIZE.
  rewrite !andb_true_iff, bool_decide_eq_true. intuition lia.
Qed.

Lemma rx_apos_char_inv c r : rx_inv r = true -> rx_inv (rx_apos_char c r) = true.
Proof.
  intros H. apply rx_inv_spec in H. destruct H as (Hlen & Hidx & Hlast).
  unfold rx_apos_char.
  destruct (is_terminator c); [destruct (Z.ltb_spec 0 (g_rx_idx r))|
                               destruct (Z.ltb_spec (g_rx_idx r) 99)];
    apply rx_inv_spec; simpl; rewrite ?length_insert;
    repeat split; try assumption; try lia.
  - destruct (decide (Z.to_nat (g_rx_idx r) = 99%nat)) as [->|Hne].
    + apply list_lookup_insert_eq. lia.
    + rewrite list_lookup_insert_ne by exact Hne. exact Hlast.
  - rewrite list_lookup_insert_ne by lia. exact Hlast.
Qed.

Lemma mesmo_fora_rx_refl s : mesmo_fora_rx s s.
Proof. now repeat split. Qed.

Lemma mesmo_fora_rx_trans s1 s2 s3 :
  mesmo_fora_rx s1 s2 -> mesmo_fora_rx s2 s3 -> mesmo_fora_rx s1 s3.
Proof.
  unfold mesmo_fora_rx. intros (?&?&?&?&?&?&?) (?&?&?&?&?&?&?).
  repeat split; congruence.
Qed.

Lemma on_uart_rx_char_spec c s :
  rx_inv (rx s) = true ->
  exists s', on_uart_rx_char c s = Some s'
             /\ rx s' = rx_apos_char c (rx s) /\ mesmo_fora_rx s s'.
Proof.
  intros H. apply rx_inv_spec in H. destruct H as (Hlen & Hidx & _).
  unfold on_uart_rx_char, rx_apos_char, RX_BUFFER_SIZE.
  change (100 - 1) with 99.
  destruct (is_terminator c); [destruct (Z.ltb_spec 0 (g_rx_idx (rx s)))|
                               destruct (Z.ltb_spec (g_rx_idx (rx s)) 99)];
    rewrite ?array_set_Some by lia; simpl;
    eexists; (split; [reflexivity|]); split; try reflexivity;
    unfold mesmo_fora_rx; simpl; now repeat split.
Qed.

Lemma rx_apos_inv fifo r : rx_inv r = true -> rx_inv (rx_apos fifo r) = true.
Proof.
  revert r. induction fifo as [|c fifo IH]; intros r H; simpl; [exact H|].
  apply IH, rx_apos_char_inv, H.
Qed.

Lemma on_uart_rx_spec fifo s :
  rx_inv (rx s) = true ->
  exists s', on_uart_rx fifo s = Some s'
             /\ rx s' = rx_apos fifo (rx s) /\ mesmo_fora_rx s s'.
Proof.
  revert s. induction fifo as [|c fifo IH]; intros s H; simpl.
  - exists s. repeat split.
  - destruct (on_uart_rx_char_spec c s H) as (s1 & -> & Hrx & Hfr). simpl.
    destruct (IH s1) as (s2 & -> & Hrx2 & Hfr2).
    { rewrite Hrx. apply rx_apos_char_inv, H. }
    exists s2. split; [reflexivity|]. split.
    + rewrite Hrx2, Hrx. reflexivity.
    + eapply mesmo_fora_rx_trans; eassumption.
Qed.

(** Draining the FIFO in two calls or in one makes no difference. *)
Lemma on_uart_rx_app fifo1 fifo2 s :
  on_uart_rx (fifo1 ++ fifo2) s = s1 ← on_uart_rx fifo1 s; on_uart_rx fifo2 s1.
Proof.
  revert s. induction fifo1 as [|c fifo1 IH]; intros s; simpl; [reflexivity|].
  destruct (on_uart_rx_char c s) as [s1|]; simpl; [apply IH|reflexivity].
Qed.

(** ** [processa_comando] *)

Lemma c_str_total (a : list ascii) (k : nat) :
  a !! k = Some NUL -> exists cmd, c_str a = Some cmd.
Proof.
  revert k. induction a as [|c a IH]; intros k H; [discriminate|]. simpl.
  destruct (Ascii.eqb c NUL) eqn:E; [eauto|].
  destruct k as [|k]; simpl in H.
  - injection H as ->. discriminate.
  - destruct (IH k H) as [cmd ->]. simpl. eauto.
Qed.

Lemma memset_all (a : list ascii) :
  length a = 100%nat -> memset a NUL RX_BUFFER_SIZE = Some (replicate 100 NUL).
Proof.
  intros H. unfold memset, RX_BUFFER_SIZE. rewrite H.
  change ((0 <=? 100) && (100 <=? Z.of_nat 100)) with true. cbv iota.
  change (Z.to_nat 100) with 100%nat.
  rewrite drop_ge by lia. now rewrite app_nil_r.
Qed.

(** [interpreta] writes the configuration and the light counter only. *)
Lemma interpreta_frame cmd s :
  filt (interpreta cmd s) = filt s /\ rx (interpreta cmd s) = rx s
  /\ g_contador_1s (interpreta cmd s) = g_contador_1s s
  /\ gpio (interpreta cmd s) = gpio s
  /\ ultimo_envio (interpreta cmd s) = ultimo_envio s
  /\ uart_tx (interpreta cmd s) = uart_tx s.
Proof.
  unfold interpreta.
  repeat match goal with
         | |- context [if ?b then _ else _] => destruct b
         | |- context [match valor_str ?c with _ => _ end] =>
             destruct (valor_str c)
         end; now repeat split.
Qed.

Lemma processa_comando_spec s :
  rx_inv (rx s) = true ->
  exists cmd s',
    c_str (g_rx_buffer (rx s)) = Some cmd
    /\ processa_comando s = Some s'
    /\ rx s' = {| g_rx_buffer := replicate 100 NUL; g_rx_idx := g_rx_idx (rx s);
                  g_comando_pronto := false |}
    /\ cfg s' = cfg (interpreta cmd (sem_pronto s))
    /\ g_segundos_de_luz_hoje s'
       = g_segundos_de_luz_hoje (interpreta cmd (sem_pronto s))
    /\ filt s' = filt s /\ g_contador_1s s' = g_contador_1s s
    /\ gpio s' = gpio s /\ ultimo_envio s' = ultimo_envio s
    /\ uart_tx s' = uart_tx s.
Proof.
  intros H. apply rx_inv_spec in H. destruct H as (Hlen & Hidx & Hlast).
  destruct (c_str_total _ _ Hlast) as [cmd Hcmd].
  exists cmd. unfold processa_comando. fold (sem_pronto s).
  change (g_rx_buffer (rx (sem_pronto s))) with (g_rx_buffer (rx s)).
  rewrite Hcmd. simpl.
  destruct (interpreta_frame cmd (sem_pronto s)) as (Hf & Hr & Hc & Hg & He & Ht).
  rewrite Hr. simpl. rewrite (memset_all _ Hlen). simpl.
  eexists. split; [reflexivity|]. split; [reflexivity|]. simpl.
  repeat split; assumption.
Qed.

(** ** The super loop *)

(** [atuadores] drives the three pins and nothing else. *)
Lemma atuadores_spec s :
  filt (atuadores s) = filt s /\ cfg (atuadores s) = cfg s
  /\ g_segundos_de_luz_hoje (atuadores s) = g_segundos_de_luz_hoje s
  /\ g_contador_1s (atuadores s) = g_contador_1s s
  /\ rx (atuadores s) = rx s
  /\ ultimo_envio (atuadores s) = ultimo_envio s
  /\ uart_tx (atuadores s) = uart_tx s
  /\ gpio_get PUMP_PIN (atuadores s)
     = (g_umidade_filtrada (filt s) >? g_umidade_setpoint_raw (cfg s))
  /\ gpio_get FAN_PIN (atuadores s)
     = (g_ntc_filtrado (filt s) <? g_temp_setpoint_raw (cfg s))
  /\ gpio_get LED_PIN (atuadores s)
     = (g_fotoperiodo_ativo (cfg s)
        && (g_segundos_de_luz_hoje s <? g_meta_luz_segundos (cfg s))
        && (g_ldr_filtrado (filt s) >? g_ldr_limiar_raw (cfg s))).
Proof.
  unfold atuadores, gpio_get, gpio_put, PUMP_PIN, FAN_PIN, LED_PIN.
  destruct (g_umidade_filtrada (filt s) >? g_umidade_setpoint_raw (cfg s));
    cbn zeta; cbn [filt cfg g_segundos_de_luz_hoje set_gpio];
    destruct (g_ntc_filtrado (filt s) <? g_temp_setpoint_raw (cfg s));
    cbn zeta; cbn [filt cfg g_segundos_de_luz_hoje set_gpio];
    destruct (g_fotoperiodo_ativo (cfg s));
    destruct (g_segundos_de_luz_hoje s <? g_meta_luz_segundos (cfg s));
    destruct (g_ldr_filtrado (filt s) >? g_ldr_limiar_raw (cfg s));
    cbn; now repeat split.
Qed.

Lemma telemetria_frame agora s :
  filt (telemetria agora s) = filt s /\ cfg (telemetria agora s) = cfg s
  /\ g_segundos_de_luz_hoje (telemetria agora s) = g_segundos_de_luz_hoje s
  /\ g_contador_1s (telemetria agora s) = g_contador_1s s
  /\ rx (telemetria agora s) = rx s /\ gpio (telemetria agora s) = gpio s.
Proof.
  unfold telemetria.
  destruct (1000 <=? to_uint32 (agora - ultimo_envio s)); now repeat split.
Qed.

Lemma rx_inv_limpo idx :
  0 <= idx <= 99 ->
  rx_inv {| g_rx_buffer := replicate 100 NUL; g_rx_idx := idx;
            g_comando_pronto := false |} = true.
Proof.
  intros H. apply rx_inv_spec. cbn [g_rx_buffer g_rx_idx].
  rewrite length_replicate. repeat split; try lia.
Qed.

(** One pass of the loop: the command, if one is ready, is interpreted
    first; the actuators and the telemetry see the state [s1] it leaves. *)
Lemma main_loop_spec agora s :
  rx_inv (rx s) = true ->
  exists s1,
    (if g_comando_pronto (rx s) then processa_comando s else Some s) = Some s1
    /\ main_loop agora s = Some (telemetria agora (atuadores s1))
    /\ rx_inv (rx s1) = true /\ filt s1 = filt s
    /\ g_contador_1s s1 = g_contador_1s s
    /\ g_rx_idx (rx s1) = g_rx_idx (rx s).
Proof.
  intros H. unfold main_loop.
  destruct (g_comando_pronto (rx s)).
  - destruct (processa_comando_spec s H)
      as (cmd & s1 & _ & -> & Hrx & _ & _ & Hf & Hc & _).
    exists s1. simpl. repeat split; try assumption.
    + rewrite Hrx. apply rx_inv_limpo.
      apply rx_inv_spec in H. tauto.
    + rewrite Hrx. reflexivity.
  - exists s. simpl. now repeat split.
Qed.

Lemma main_loop_inv agora s :
  inv s = true ->
  exists s', main_loop agora s = Some s' /\ inv s' = true
             /\ filt s' = filt s /\ g_contador_1s s' = g_contador_1s s
             /\ g_rx_idx (rx s') = g_rx_idx (rx s).
Proof.
  intros H. apply inv_spec in H. destruct H as [Hf Hrx].
  destruct (main_loop_spec agora s Hrx) as (s1 & _ & -> & Hrx1 & Hf1 & Hc1 & Hi1).
  eexists. split; [reflexivity|].
  destruct (telemetria_frame agora (atuadores s1)) as (Tf & _ & _ & Tc & Tr & _).
  destruct (atuadores_spec s1) as (Af & _ & _ & Ac & Ar & _).
  rewrite inv_spec, Tf, Tr, Af, Ar, Tc, Ac, Hf1.
  repeat split; assumption.
Qed.

(** ** Every execution is defined and keeps the invariant *)

Lemma step_inv e s :
  inv s = true -> event_ok e = true ->
  exists s', step e s = Some s' /\ inv s' = true.
Proof.
  intros H Hok. destruct e as [l n u|fifo|agora]; simpl.
  - destruct (timer_callback_spec l n u s H Hok) as (s' & ? & ? & _). eauto.
  - apply inv_spec in H. destruct H as [Hf Hrx].
    destruct (on_uart_rx_spec fifo s Hrx) as (s' & -> & Hr & Hfr & _).
    exists s'. split; [reflexivity|]. apply inv_spec.
    rewrite Hfr, Hr. split; [exact Hf|]. apply rx_apos_inv, Hrx.
  - destruct (main_loop_inv agora s H) as (s' & ? & ? & _). eauto.
Qed.

Lemma run_inv evs s :
  inv s = true -> forallb event_ok evs = true ->
  exists s', run evs s = Some s' /\ inv s' = true.
Proof.
  revert s. induction evs as [|e evs IH]; intros s H Hok; simpl.
  - eauto.
  - simpl in Hok. apply andb_true_iff in Hok. destruct Hok as [He Hevs].
    destruct (step_inv e s H He) as (s1 & -> & H1). simpl.
    apply IH; assumption.
Qed.

Lemma run_app evs1 evs2 s :
  run (evs1 ++ evs2) s = s1 ← run evs1 s; run evs2 s1.
Proof.
  revert s. induction evs1 as [|e evs1 IH]; intros s; simpl; [reflexivity|].
  destruct (step e s) as [s1|]; simpl; [apply IH|reflexivity].
Qed.

Lemma inv_main_init : inv main_init = true.
Proof. reflexivity. Qed.

(** ** The moving-average window *)

Lemma ultimas_slide {A} (n : nat) (w r : list A) (x : A) :
  length w = S n ->
  ultimas (S n) ((drop 1 w ++ [x]) ++ r) = ultimas (S n) (w ++ x :: r).
Proof.
  intros Hw. destruct w as [|a w]; [discriminate|].
  simpl in Hw. injection Hw as Hw.
  change (drop 1 (a :: w)) with w.
  rewrite <- app_assoc. change ([x] ++ r) with (x :: r).
  change ((a :: w) ++ x :: r) with (a :: (w ++ x :: r)).
  unfold ultimas. change (length (a :: w ++ x :: r)) with (S (length (w ++ x :: r))).
  rewrite length_app. simpl length.
  replace (S (length w + S (length r)) - S n)%nat
    with (S (length w + S (length r) - S n)) by lia.
  reflexivity.
Qed.

Lemma janela_cheia (amostras : list Z) :
  (32 <= length amostras)%nat -> janela amostras = ultimas 32 amostras.
Proof. intros H. unfold janela. now apply ultimas_app. Qed.

Lemma shiftr_5_div x : Z.shiftr x 5 = x / 32.
Proof. now rewrite Z.shiftr_div_pow2 by lia. Qed.

Section Canal.
(** One of the three channels: its ring, and which of the three ADC
    results of a tick it is fed. *)
Variable buf_of : filtro -> list Z.
Variable amostra : Z -> Z -> Z -> Z.

Hypothesis buf_of_timer : forall l n u s s',
  inv s = true -> event_ok (Timer l n u) = true ->
  timer_callback l n u s = Some s' ->
  buf_of (filt s')
  = <[Z.to_nat (avg_idx (filt s)) := amostra l n u]> (buf_of (filt s)).
Hypothesis buf_of_length : forall s,
  inv s = true -> length (buf_of (filt s)) = 32%nat.

Lemma run_ring evs : forall s w,
  inv s = true -> forallb event_ok evs = true -> length w = 32%nat ->
  ring (buf_of (filt s)) (avg_idx (filt s)) w ->
  exists s', run evs s = Some s' /\ inv s' = true
             /\ ring (buf_of (filt s')) (avg_idx (filt s'))
                  (ultimas 32 (w ++ amostras amostra evs)).
Proof.
  induction evs as [|e evs IH]; intros s w Hinv Hok Hw Hring.
  - exists s. simpl. rewrite app_nil_r, ultimas_all by exact Hw. auto.
  - simpl in Hok. apply andb_true_iff in Hok. destruct Hok as [He Hevs].
    destruct e as [l n u|fifo|agora].
    + destruct (timer_callback_spec l n u s Hinv He)
        as (s1 & Hs1 & Hinv1 & _ & _ & _ & Hidx1 & _).
      pose proof (buf_of_timer l n u s s1 Hinv He Hs1) as Hbuf1.
      assert (Hidx : 0 <= avg_idx (filt s) < 32).
      { apply inv_spec in Hinv. destruct Hinv as [Hf _].
        apply filtro_inv_spec in Hf. tauto. }
      pose proof (ring_step _ _ _ (amostra l n u) Hring
                    (buf_of_length s Hinv) Hidx) as Hring1.
      rewrite <- Hbuf1, <- Hidx1 in Hring1.
      destruct (IH s1 (drop 1 w ++ [amostra l n u]) Hinv1 Hevs) as
        (s' & Hrun & Hinv' & Hring'); [|exact Hring1|].
      { rewrite length_app, length_drop, Hw. reflexivity. }
      exists s'. simpl. rewrite Hs1. simpl.
      rewrite ultimas_slide in Hring' by exact Hw. auto.
    + assert (Hrx : rx_inv (rx s) = true) by (apply inv_spec in Hinv; tauto).
      destruct (step_inv (Rx fifo) s Hinv He) as (s1 & Hs1 & Hinv1).
      destruct (on_uart_rx_spec fifo s Hrx) as (s1' & Hs1' & _ & Hf & _).
      simpl in Hs1. rewrite Hs1' in Hs1. injection Hs1 as ->.
      rewrite <- Hf in Hring.
      destruct (IH s1 w Hinv1 Hevs Hw Hring) as (s' & Hrun & Hinv' & Hring').
      exists s'. simpl. rewrite Hs1'. simpl. auto.
    + destruct (main_loop_inv agora s Hinv) as (s1 & Hs1 & Hinv1 & Hf & _).
      rewrite <- Hf in Hring.
      destruct (IH s1 w Hinv1 Hevs Hw Hring) as (s' & Hrun & Hinv' & Hring').
      exists s'. simpl. rewrite Hs1. simpl. auto.
Qed.
End Canal.

Lemma inv_canais s :
  inv s = true ->
  canal_inv (ldr_buffer (filt s)) (ldr_sum (filt s)) (g_ldr_filtrado (filt s)) = true
  /\ canal_inv (ntc_buffer (filt s)) (ntc_sum (filt s)) (g_ntc_filtrado (filt s)) = true
  /\ canal_inv (umidade_buffer (filt s)) (umidade_sum (filt s))
       (g_umidade_filtrada (filt s)) = true.
Proof.
  intros H. apply inv_spec in H. destruct H as [H _].
  apply filtro_inv_spec in H. tauto.
Qed.

Lemma soma_replicate_0 (k : nat) : soma (replicate k 0) = 0.
Proof. induction k as [|k IH]; [reflexivity|]. simpl. exact IH. Qed.

(** The zeros that complete a window add nothing to its sum. *)
Lemma soma_janela (amostras : list Z) :
  soma (janela amostras) = soma (ultimas 32 amostras).
Proof.
  destruct (le_lt_dec 32 (length amostras)) as [Hge|Hlt].
  - now rewrite janela_cheia.
  - unfold janela, ultimas. rewrite length_app, length_replicate.
    replace (32 + length amostras - 32)%nat with (length amostras) by lia.
    replace (length amostras - 32)%nat with 0%nat by lia.
    rewrite drop_app_le by (rewrite length_replicate; lia).
    rewrite drop_replicate, soma_app, soma_replicate_0. reflexivity.
Qed.

Lemma media_da_janela_intro buf idx sum filtrado amostras :
  canal_inv buf sum filtrado = true ->
  ring buf idx (janela amostras) ->
  media_da_janela buf idx sum filtrado amostras.
Proof.
  intros Hc Hring. apply canal_inv_spec in Hc.
  destruct Hc as (Hlen & _ & Hsum & Hfil).
  pose proof (ring_soma _ _ _ Hring) as Hw. rewrite soma_janela in Hw.
  unfold media_da_janela, AVG_SHIFT_BITS.
  assert (Hf : filtrado = Z.shiftr (soma (ultimas 32 amostras)) 5) by congruence.
  repeat split; try assumption.
  rewrite Hf. apply shiftr_5_div.
Qed.

(** ** Moving-average filter (C1) *)

Lemma run_det evs s s1 s2 : run evs s = Some s1 -> run evs s = Some s2 -> s1 = s2.
Proof. congruence. Qed.

(** C1. Along every execution from the start of the loop, whatever the
    interleaving of timer ticks, receive interrupts and loop passes, each of
    the three channels satisfies [media_da_janela] after every step: its
    running sum is the sum of the 32 cells of its ring, the ring holds the
    last 32 entries of the channel's history (the zeroed ring followed by
    the raw samples fed to it), and its published value is the sum of the
    last 32 raw samples fed to it shifted right by 5, which is that sum
    divided by 32 and rounded down. No running sum wraps. *)
Theorem filtro_media_das_ultimas_32 (evs : list event) :
  forallb event_ok evs = true ->
  exists s,
    run evs main_init = Some s
    /\ media_da_janela (ldr_buffer (filt s)) (avg_idx (filt s))
         (ldr_sum (filt s)) (g_ldr_filtrado (filt s)) (ldr_amostras evs)
    /\ media_da_janela (ntc_buffer (filt s)) (avg_idx (filt s))
         (ntc_sum (filt s)) (g_ntc_filtrado (filt s)) (ntc_amostras evs)
    /\ media_da_janela (umidade_buffer (filt s)) (avg_idx (filt s))
         (umidade_sum (filt s)) (g_umidade_filtrada (filt s))
         (umidade_amostras evs).
Proof.
  intros Hok.
  assert (Hlen : forall (buf_of : filtro -> list Z) s,
             (exists sum fil, canal_inv (buf_of (filt s)) sum fil = true) ->
             length (buf_of (filt s)) = 32%nat).
  { intros buf_of s (sum & fil & H). apply canal_inv_spec in H. tauto. }
  destruct (run_ring ldr_buffer (fun l _ _ => l)) with
    (evs := evs) (s := main_init) (w := replicate 32 0)
    as (s & Hrun & Hinv & Hl);
    try reflexivity; try exact Hok; try exact ring_init.
  { intros l n u s0 s' H0 He Ht.
    destruct (timer_callback_spec l n u s0 H0 He) as (s1 & Hs1 & _ & Hb & _).
    congruence. }
  { intros s0 H0. apply Hlen. destruct (inv_canais s0 H0) as (H & _). eauto. }
  destruct (run_ring ntc_buffer (fun _ n _ => n)) with
    (evs := evs) (s := main_init) (w := replicate 32 0)
    as (s2 & Hrun2 & _ & Hn);
    try reflexivity; try exact Hok; try exact ring_init.
  { intros l n u s0 s' H0 He Ht.
    destruct (timer_callback_spec l n u s0 H0 He) as (s1 & Hs1 & _ & _ & Hb & _).
    congruence. }
  { intros s0 H0. apply Hlen. destruct (inv_canais s0 H0) as (_ & H & _). eauto. }
  destruct (run_ring umidade_buffer (fun _ _ u => u)) with
    (evs := evs) (s := main_init) (w := replicate 32 0)
    as (s3 & Hrun3 & _ & Hu);
    try reflexivity; try exact Hok; try exact ring_init.
  { intros l n u s0 s' H0 He Ht.
    destruct (timer_callback_spec l n u s0 H0 He)
      as (s1 & Hs1 & _ & _ & _ & Hb & _).
    congruence. }
  { intros s0 H0. apply Hlen. destruct (inv_canais s0 H0) as (_ & _ & H). eauto. }
  rewrite (run_det _ _ _ _ Hrun2 Hrun) in Hn.
  rewrite (run_det _ _ _ _ Hrun3 Hrun) in Hu.
  destruct (inv_canais s Hinv) as (Cl & Cn & Cu).
  exists s. split; [exact Hrun|].
  split; [|split]; apply media_da_janela_intro; assumption.
Qed.

Lemma filtro_media_das_ultimas_32_witness :
  exists s,
    run exemplo_c1 main_init = Some s
    /\ media_da_janela (ldr_buffer (filt s)) (avg_idx (filt s))
         (ldr_sum (filt s)) (g_ldr_filtrado (filt s)) (ldr_amostras exemplo_c1)
    /\ media_da_janela (ntc_buffer (filt s)) (avg_idx (filt s))
         (ntc_sum (filt s)) (g_ntc_filtrado (filt s)) (ntc_amostras exemplo_c1)
    /\ media_da_janela (umidade_buffer (filt s)) (avg_idx (filt s))
         (umidade_sum (filt s)) (g_umidade_filtrada (filt s))
         (umidade_amostras exemplo_c1).
Proof. apply (filtro_media_das_ultimas_32 exemplo_c1). reflexivity. Defined.

(** ** Telemetry frame (C2) *)

(** C2. In a state with filtered light 1000, filtered temperature 2000,
    filtered moisture 3000, the grow-light pin high and 90000 lit seconds,
    the telemetry frame is the 13 bytes
    03 E8 07 D0 0B B8 01 00 01 5F 90 76 AA: big-endian fields, then the
    checksum, which is the sum of the 11 bytes before it modulo 256, then
    the end marker 0xAA; and when the gate opens this is the frame the loop
    writes to the UART. *)
Theorem telemetria_quadro_exemplo (agora : Z) (s : state) :
  g_ldr_filtrado (filt s) = 1000 ->
  g_ntc_filtrado (filt s) = 2000 ->
  g_umidade_filtrada (filt s) = 3000 ->
  gpio_get LED_PIN s = true ->
  g_segundos_de_luz_hoje s = 90000 ->
  packet s = [0x03; 0xE8; 0x07; 0xD0; 0x0B; 0xB8; 0x01;
              0x00; 0x01; 0x5F; 0x90; 0x76; 0xAA]
  /\ length (packet s) = 13%nat
  /\ packet s !! 11%nat = Some (soma (take 11 (packet s)) mod 256)
  /\ packet s !! 12%nat = Some 0xAA
  /\ (1000 <= to_uint32 (agora - ultimo_envio s) ->
      uart_tx (telemetria agora s)
      = uart_tx s ++ [[0x03; 0xE8; 0x07; 0xD0; 0x0B; 0xB8; 0x01;
                       0x00; 0x01; 0x5F; 0x90; 0x76; 0xAA]]).
Proof.
  intros Hl Hn Hu Hled Hseg.
  assert (Hp : packet s = [0x03; 0xE8; 0x07; 0xD0; 0x0B; 0xB8; 0x01;
                           0x00; 0x01; 0x5F; 0x90; 0x76; 0xAA]).
  { unfold packet. rewrite Hl, Hn, Hu, Hled, Hseg. reflexivity. }
  split; [exact Hp|]. unfold telemetria. rewrite Hp.
  repeat split.
  intros Hgate. apply Z.leb_le in Hgate. rewrite Hgate. reflexivity.
Qed.

Lemma telemetria_quadro_exemplo_witness :
  packet exemplo_c2 = [0x03; 0xE8; 0x07; 0xD0; 0x0B; 0xB8; 0x01;
                       0x00; 0x01; 0x5F; 0x90; 0x76; 0xAA]
  /\ uart_tx (telemetria 1000 exemplo_c2)
     = [[0x03; 0xE8; 0x07; 0xD0; 0x0B; 0xB8; 0x01;
         0x00; 0x01; 0x5F; 0x90; 0x76; 0xAA]].
Proof.
  destruct (telemetria_quadro_exemplo 1000 exemplo_c2)
    as (Hp & _ & _ & _ & Htx); try reflexivity.
  split; [exact Hp|]. apply Htx. vm_compute. discriminate.
Defined.

(** ** Grow light (C4) *)

(** C4. One pass of the loop sets the grow-light pin high exactly when,
    in the state [s1] left by the command processing of that pass, the
    photoperiod is enabled, [g_segundos_de_luz_hoje] is strictly below the
    goal and the filtered light is strictly above the threshold; otherwise
    it sets it low, in particular as soon as the counter reaches the
    goal. *)
Theorem led_crescimento_liga_sse (agora : Z) (s : state) :
  rx_inv (rx s) = true ->
  exists s1 s',
    (if g_comando_pronto (rx s) then processa_comando s else Some s) = Some s1
    /\ main_loop agora s = Some s'
    /\ (gpio_get LED_PIN s' = true <->
        g_fotoperiodo_ativo (cfg s1) = true
        /\ g_segundos_de_luz_hoje s1 < g_meta_luz_segundos (cfg s1)
        /\ g_ldr_filtrado (filt s1) > g_ldr_limiar_raw (cfg s1))
    /\ (gpio_get LED_PIN s' = false <->
        g_fotoperiodo_ativo (cfg s1) = false
        \/ g_meta_luz_segundos (cfg s1) <= g_segundos_de_luz_hoje s1
        \/ g_ldr_filtrado (filt s1) <= g_ldr_limiar_raw (cfg s1)).
Proof.
  intros Hrx.
  destruct (main_loop_spec agora s Hrx) as (s1 & Hs1 & Hloop & _).
  exists s1, (telemetria agora (atuadores s1)).
  split; [exact Hs1|]. split; [exact Hloop|].
  destruct (telemetria_frame agora (atuadores s1)) as (_ & _ & _ & _ & _ & Tg).
  destruct (atuadores_spec s1) as (_ & _ & _ & _ & _ & _ & _ & _ & _ & Hled).
  unfold gpio_get in *. rewrite Tg, Hled.
  destruct (g_fotoperiodo_ativo (cfg s1));
    destruct (Z.ltb_spec (g_segundos_de_luz_hoje s1) (g_meta_luz_segundos (cfg s1)));
    destruct (Z.gtb_spec (g_ldr_filtrado (filt s1)) (g_ldr_limiar_raw (cfg s1)));
    simpl; split; split; intros; try discriminate; try reflexivity;
    try lia; intuition (try discriminate; lia).
Qed.

Lemma led_crescimento_liga_sse_witness :
  exists s', main_loop 5 exemplo_c4 = Some s' /\ gpio_get LED_PIN s' = true.
Proof.
  destruct (led_crescimento_liga_sse 5 exemplo_c4)
    as (s1 & s' & Hs1 & Hloop & Hon & _); [reflexivity|].
  exists s'. split; [exact Hloop|]. apply Hon.
  simpl in Hs1. injection Hs1 as <-. vm_compute. repeat split.
Defined.

(** ** Light-present predicate (C7) *)

(** C7. With the threshold at 2000 and the grow light off, [tem_sol], and
    with it the condition [led_ligado || tem_sol] under which a second is
    counted, holds exactly for filtered light values up to and including
    2000: it holds at 1999 and at 2000 and fails at 2001. Accordingly the
    tenth tick of a second counts it exactly when the filtered light it has
    just published is at most 2000. *)
Theorem tem_sol_inclusivo_no_limiar (s : state) :
  g_ldr_limiar_raw (cfg s) = 2000 ->
  led_ligado s = false ->
  (tem_sol s = true <-> g_ldr_filtrado (filt s) <= 2000)
  /\ (tem_sol s = false <-> g_ldr_filtrado (filt s) > 2000)
  /\ (led_ligado s || tem_sol s = tem_sol s)
  /\ (g_ldr_filtrado (filt s) = 1999 -> tem_sol s = true)
  /\ (g_ldr_filtrado (filt s) = 2000 -> tem_sol s = true)
  /\ (g_ldr_filtrado (filt s) = 2001 -> tem_sol s = false)
  /\ (forall l n u,
        inv s = true -> event_ok (Timer l n u) = true -> g_contador_1s s = 9 ->
        exists s',
          timer_callback l n u s = Some s'
          /\ g_segundos_de_luz_hoje s'
             = (if g_ldr_filtrado (filt s') <=? 2000
                then to_uint32 (g_segundos_de_luz_hoje s + 1)
                else g_segundos_de_luz_hoje s)).
Proof.
  intros Hlim Hled. split; [|split; [|split; [|split; [|split; [|split]]]]].
  7: { intros l n u Hinv Hok Hc.
       destruct (timer_callback_spec l n u s Hinv Hok)
         as (s' & Hs' & _ & _ & _ & _ & _ & _ & _ & _ & _ & _ & _ & Hseg).
       exists s'. split; [exact Hs'|].
       unfold led_ligado, gpio_get in Hled.
       rewrite Hc, Hled, Hlim in Hseg. exact Hseg. }
  all: unfold tem_sol; rewrite Hlim, ?Hled;
    destruct (Z.leb_spec (g_ldr_filtrado (filt s)) 2000); simpl;
    repeat split; intros; try discriminate; try reflexivity; lia.
Qed.

Lemma tem_sol_inclusivo_no_limiar_witness :
  tem_sol (filtrado_em 1999 0 0) = true /\ tem_sol (filtrado_em 2001 0 0) = false.
Proof.
  split.
  - destruct (tem_sol_inclusivo_no_limiar (filtrado_em 1999 0 0))
      as (_ & _ & _ & H & _); [calcula|calcula|].
    apply H. calcula.
  - destruct (tem_sol_inclusivo_no_limiar (filtrado_em 2001 0 0))
      as (_ & _ & _ & _ & _ & H & _); [calcula|calcula|].
    apply H. calcula.
Defined.

(** ** Photoperiod counter (C3) *)

(** Ticks that do not reach the tenth leave the light counter alone. *)
Lemma ticks_parciais (tks : list (Z * Z * Z)) : forall s,
  inv s = true -> forallb event_ok (map tick tks) = true ->
  0 <= g_contador_1s s -> g_contador_1s s + Z.of_nat (length tks) < 10 ->
  exists s',
    run (map tick tks) s = Some s' /\ inv s' = true
    /\ g_segundos_de_luz_hoje s' = g_segundos_de_luz_hoje s
    /\ g_contador_1s s' = g_contador_1s s + Z.of_nat (length tks)
    /\ cfg s' = cfg s /\ gpio s' = gpio s.
Proof.
  induction tks as [|[[l n] u] tks IH]; intros s Hinv Hok Hc0 Hc.
  - exists s. simpl. repeat split; try assumption. lia.
  - simpl in Hok. apply andb_true_iff in Hok. destruct Hok as [He Hoks].
    simpl length in Hc.
    destruct (timer_callback_spec l n u s Hinv He)
      as (s1 & Hs1 & Hinv1 & _ & _ & _ & _ & Hcfg & _ & Hgpio & _ & _ & Hcnt & Hseg).
    rewrite to_uint32_small in Hcnt, Hseg by lia.
    destruct (Z.leb_spec 10 (g_contador_1s s + 1)) as [Hge|Hlt]; [lia|].
    simpl in Hseg.
    destruct (IH s1 Hinv1 Hoks) as (s' & Hrun & Hinv' & Hseg' & Hcnt' & Hcfg' & Hgpio');
      [lia|lia|].
    exists s'. simpl. rewrite Hs1. simpl.
    repeat split; try assumption; try congruence.
    simpl length. lia.
Qed.

(** C3. From a state whose tick counter is 0, fewer than 10 calls of
    [timer_callback] never change [g_segundos_de_luz_hoje]. Exactly 10
    calls leave the grow-light pin and the threshold as they were and add 1
    to the counter when light is present at the tenth call, that is when
    the grow-light pin is high or the filtered light just published is at
    or below the threshold; they leave the counter unchanged when the pin
    is low and the filtered light is above the threshold. So the counter
    never grows by more than 1. The addition is that of a [uint32_t]: it
    is [+ 1] below the maximum of the type. *)
Theorem dez_ticks_um_segundo (s : state) (tks : list (Z * Z * Z)) :
  inv s = true -> g_contador_1s s = 0 ->
  forallb event_ok (map tick tks) = true ->
  (length tks <= 10)%nat ->
  exists s',
    run (map tick tks) s = Some s'
    /\ ((length tks < 10)%nat ->
        g_segundos_de_luz_hoje s' = g_segundos_de_luz_hoje s)
    /\ (length tks = 10%nat ->
        g_contador_1s s' = 0
        /\ gpio s' = gpio s /\ cfg s' = cfg s
        /\ (gpio s LED_PIN = true
            \/ g_ldr_filtrado (filt s') <= g_ldr_limiar_raw (cfg s) ->
            g_segundos_de_luz_hoje s' = to_uint32 (g_segundos_de_luz_hoje s + 1)
            /\ (0 <= g_segundos_de_luz_hoje s < 2 ^ 32 - 1 ->
                g_segundos_de_luz_hoje s' = g_segundos_de_luz_hoje s + 1))
        /\ (gpio s LED_PIN = false ->
            g_ldr_filtrado (filt s') > g_ldr_limiar_raw (cfg s) ->
            g_segundos_de_luz_hoje s' = g_segundos_de_luz_hoje s)).
Proof.
  intros Hinv Hc Hok Hlen.
  destruct (Nat.eq_dec (length tks) 10%nat) as [H10|Hne].
  - assert (Hsplit : map tick tks = map tick (take 9 tks) ++ map tick (drop 9 tks))
      by (now rewrite <- map_app, take_drop).
    rewrite Hsplit in Hok |- *. rewrite forallb_app in Hok.
    apply andb_true_iff in Hok. destruct Hok as [Hok9 Hok1].
    destruct (ticks_parciais (take 9 tks) s Hinv Hok9)
      as (s9 & Hrun9 & Hinv9 & Hseg9 & Hcnt9 & Hcfg9 & Hgpio9);
      [lia|rewrite length_take; lia|].
    rewrite length_take, Hc in Hcnt9.
    replace (0 + Z.of_nat (9 `min` length tks)) with 9 in Hcnt9 by lia.
    destruct (drop 9 tks) as [|[[l n] u] [|? ?]] eqn:Hd;
      try (apply (f_equal length) in Hd; rewrite length_drop in Hd;
           simpl in Hd; lia).
    simpl in Hok1. rewrite andb_true_r in Hok1.
    destruct (timer_callback_spec l n u s9 Hinv9 Hok1)
      as (s' & Hs' & _ & _ & _ & _ & _ & Hcfg & _ & Hgpio & _ & _ & Hcnt & Hseg).
    rewrite Hcnt9 in Hcnt, Hseg. simpl in Hcnt, Hseg.
    rewrite Hgpio9, Hcfg9, Hseg9 in Hseg.
    exists s'. rewrite run_app, Hrun9. simpl. rewrite Hs'. simpl.
    split; [reflexivity|]. split; [lia|].
    intros _. split; [exact Hcnt|].
    split; [congruence|]. split; [congruence|].
    split.
    + intros Hluz.
      assert (E : gpio s LED_PIN
                  || (g_ldr_filtrado (filt s') <=? g_ldr_limiar_raw (cfg s))
                  = true).
      { destruct Hluz as [->|Hle]; [reflexivity|].
        apply orb_true_iff. right. apply Z.leb_le. exact Hle. }
      rewrite E in Hseg. split; [exact Hseg|].
      intros Hr. rewrite Hseg. apply to_uint32_small. lia.
    + intros Hled Hgt. rewrite Hled in Hseg.
      destruct (Z.leb_spec (g_ldr_filtrado (filt s')) (g_ldr_limiar_raw (cfg s)));
        [lia|exact Hseg].
  - destruct (ticks_parciais tks s Hinv Hok) as (s' & Hrun & _ & Hseg & _); [lia|lia|].
    exists s'. split; [exact Hrun|]. split; [intros _; exact Hseg|lia].
Qed.

Lemma dez_ticks_um_segundo_witness :
  (exists s',
      run (map tick (repeat (1500, 1500, 1500) 10)) main_init = Some s'
      /\ g_contador_1s s' = 0
      /\ g_segundos_de_luz_hoje s' = g_segundos_de_luz_hoje main_init + 1)
  /\ (exists s',
        run (map tick (repeat (60000, 0, 0) 10)) (gpio_put LED_PIN true main_init)
        = Some s'
        /\ g_ldr_filtrado (filt s') = 18750
        /\ g_segundos_de_luz_hoje s' = 1).
Proof.
  split.
  - destruct (dez_ticks_um_segundo main_init (repeat (1500, 1500, 1500) 10))
      as (s' & Hrun & _ & H10); [calcula|calcula|calcula|vm_compute; lia|].
    destruct (H10 eq_refl) as (Hcnt & _ & _ & Hluz & _).
    exists s'. split; [exact Hrun|]. split; [exact Hcnt|].
    apply Hluz; [|vm_compute; split; [discriminate|reflexivity]].
    right. vm_compute in Hrun. injection Hrun as <-. vm_compute. discriminate.
  - destruct (dez_ticks_um_segundo (gpio_put LED_PIN true main_init)
                (repeat (60000, 0, 0) 10))
      as (s' & Hrun & _ & H10); [calcula|calcula|calcula|vm_compute; lia|].
    destruct (H10 eq_refl) as (_ & _ & _ & Hluz & _).
    exists s'. split; [exact Hrun|]. split.
    + vm_compute in Hrun. injection Hrun as <-. reflexivity.
    + apply Hluz; [left; reflexivity|].
      vm_compute. split; [discriminate|reflexivity].
Defined.

(** ** Commands (C5, C8, C9) *)

Lemma interpreta_desconhecido cmd s : reconhecido cmd = false -> interpreta cmd s = s.
Proof.
  unfold reconhecido, padroes. cbn [existsb]. rewrite !orb_false_iff.
  intros (H1 & H2 & H3 & H4 & H5 & H6 & _).
  unfold interpreta. now rewrite H1, H2, H3, H4, H5, H6.
Qed.

(** C5, counterexample. The line [SET,HUMID,abc] is malformed, yet it
    contains the pattern [SET,HUMID,]: processing it writes [atoi "abc"],
    that is 0, over the moisture setpoint 3000. *)
Lemma malformado_altera_setpoint :
  inv (recebido "SET,HUMID,abc") = true
  /\ c_str (g_rx_buffer (rx (recebido "SET,HUMID,abc"))) = Some (lit "SET,HUMID,abc")
  /\ bem_formado (lit "SET,HUMID,abc") = false
  /\ g_umidade_setpoint_raw (cfg (recebido "SET,HUMID,abc")) = 3000
  /\ (g_umidade_setpoint_raw <$> (cfg <$> processa_comando (recebido "SET,HUMID,abc")))
     = Some 0
  /\ ~ ignora_malformado (recebido "SET,HUMID,abc").
Proof.
  repeat split; try reflexivity.
  intros H.
  destruct (processa_comando (recebido "SET,HUMID,abc")) as [s'|] eqn:Hs';
    [|vm_compute in Hs'; discriminate].
  destruct (H (lit "SET,HUMID,abc") s') as [Hcfg _];
    [reflexivity|left; reflexivity|exact Hs'|].
  assert (H0 : g_umidade_setpoint_raw (cfg s') = 0).
  { vm_compute in Hs'. injection Hs' as <-. reflexivity. }
  rewrite Hcfg in H0. vm_compute in H0. discriminate.
Qed.

(** C5, as amended. Processing always succeeds, clears the whole buffer
    and resets the ready flag; and when the line contains none of the six
    patterns it leaves the five configuration fields and
    [g_segundos_de_luz_hoje] unchanged. *)
Theorem desconhecido_ignorado_e_buffer_limpo (s : state) :
  rx_inv (rx s) = true ->
  exists cmd s',
    c_str (g_rx_buffer (rx s)) = Some cmd
    /\ processa_comando s = Some s'
    /\ g_rx_buffer (rx s') = replicate 100 NUL
    /\ g_comando_pronto (rx s') = false
    /\ (reconhecido cmd = false ->
        cfg s' = cfg s
        /\ g_segundos_de_luz_hoje s' = g_segundos_de_luz_hoje s).
Proof.
  intros Hrx.
  destruct (processa_comando_spec s Hrx)
    as (cmd & s' & Hcmd & Hs' & Hrx' & Hcfg & Hseg & _).
  exists cmd, s'. rewrite Hrx'. repeat split; try assumption.
  - rewrite Hcfg, interpreta_desconhecido by assumption. reflexivity.
  - rewrite Hseg, interpreta_desconhecido by assumption. reflexivity.
Qed.

Lemma desconhecido_ignorado_e_buffer_limpo_witness :
  exists s',
    processa_comando (recebido "LIGA,TUDO") = Some s'
    /\ g_rx_buffer (rx s') = replicate 100 NUL
    /\ g_comando_pronto (rx s') = false
    /\ cfg s' = cfg (recebido "LIGA,TUDO")
    /\ g_segundos_de_luz_hoje s'
       = g_segundos_de_luz_hoje (recebido "LIGA,TUDO").
Proof.
  destruct (desconhecido_ignorado_e_buffer_limpo (recebido "LIGA,TUDO"))
    as (cmd & s' & Hcmd & Hs' & Hbuf & Hp & Hkeep); [calcula|].
  exists s'. split; [exact Hs'|]. split; [exact Hbuf|]. split; [exact Hp|].
  apply Hkeep. vm_compute in Hcmd. injection Hcmd as <-. calcula.
Defined.

Lemma interpreta_set_humid_1234 s :
  interpreta (lit "SET,HUMID,1234") s
  = set_cfg (set_g_umidade_setpoint_raw 1234 (cfg s)) s.
Proof. reflexivity. Qed.

Lemma interpreta_reset_timer_luz s :
  interpreta (lit "RESET,TIMER_LUZ") s = set_g_segundos_de_luz_hoje 0 s.
Proof. reflexivity. Qed.

(** C8. Processing [SET,HUMID,1234] sets the moisture setpoint to 1234;
    from then on, in any state with that setpoint, the actuator logic
    drives the pump pin high when the filtered moisture is 1235 and low
    when it is 1234: the comparison is a strict [>]. *)
Theorem set_humid_1234_bomba (s : state) :
  rx_inv (rx s) = true ->
  c_str (g_rx_buffer (rx s)) = Some (lit "SET,HUMID,1234") ->
  exists s',
    processa_comando s = Some s'
    /\ g_umidade_setpoint_raw (cfg s') = 1234
    /\ forall t,
         g_umidade_setpoint_raw (cfg t) = g_umidade_setpoint_raw (cfg s') ->
         gpio_get PUMP_PIN (atuadores t) = (g_umidade_filtrada (filt t) >? 1234)
         /\ (g_umidade_filtrada (filt t) = 1235 ->
             gpio_get PUMP_PIN (atuadores t) = true)
         /\ (g_umidade_filtrada (filt t) = 1234 ->
             gpio_get PUMP_PIN (atuadores t) = false).
Proof.
  intros Hrx Hcmd.
  destruct (processa_comando_spec s Hrx) as (cmd & s' & Hcmd' & Hs' & _ & Hcfg & _).
  rewrite Hcmd in Hcmd'. injection Hcmd' as <-.
  rewrite interpreta_set_humid_1234 in Hcfg.
  exists s'. split; [exact Hs'|]. rewrite Hcfg. simpl.
  split; [reflexivity|]. intros t Ht.
  destruct (atuadores_spec t) as (_ & _ & _ & _ & _ & _ & _ & Hpump & _).
  rewrite Hpump, Ht.
  split; [reflexivity|]. split; intros ->; reflexivity.
Qed.

Lemma set_humid_1234_bomba_witness :
  exists s',
    processa_comando (recebido "SET,HUMID,1234") = Some s'
    /\ g_umidade_setpoint_raw (cfg s') = 1234
    /\ gpio_get PUMP_PIN (atuadores (com_umidade 1234 1235)) = true
    /\ gpio_get PUMP_PIN (atuadores (com_umidade 1234 1234)) = false.
Proof.
  destruct (set_humid_1234_bomba (recebido "SET,HUMID,1234"))
    as (s' & Hs' & Hset & Hpump); [calcula|calcula|].
  exists s'. split; [exact Hs'|]. split; [exact Hset|]. split.
  - apply (Hpump (com_umidade 1234 1235)); [rewrite Hset; calcula|calcula].
  - apply (Hpump (com_umidade 1234 1234)); [rewrite Hset; calcula|calcula].
Defined.

(** C9. Whatever the state, processing [RESET,TIMER_LUZ] sets
    [g_segundos_de_luz_hoje] to 0 and leaves the five configuration fields
    as they were. *)
Theorem reset_timer_luz_zera_contador (s : state) :
  rx_inv (rx s) = true ->
  c_str (g_rx_buffer (rx s)) = Some (lit "RESET,TIMER_LUZ") ->
  exists s',
    processa_comando s = Some s'
    /\ g_segundos_de_luz_hoje s' = 0
    /\ g_umidade_setpoint_raw (cfg s') = g_umidade_setpoint_raw (cfg s)
    /\ g_temp_setpoint_raw (cfg s') = g_temp_setpoint_raw (cfg s)
    /\ g_ldr_limiar_raw (cfg s') = g_ldr_limiar_raw (cfg s)
    /\ g_fotoperiodo_ativo (cfg s') = g_fotoperiodo_ativo (cfg s)
    /\ g_meta_luz_segundos (cfg s') = g_meta_luz_segundos (cfg s).
Proof.
  intros Hrx Hcmd.
  destruct (processa_comando_spec s Hrx)
    as (cmd & s' & Hcmd' & Hs' & _ & Hcfg & Hseg & _).
  rewrite Hcmd in Hcmd'. injection Hcmd' as <-.
  rewrite interpreta_reset_timer_luz in Hcfg, Hseg.
  exists s'. split; [exact Hs'|]. rewrite Hcfg, Hseg. now repeat split.
Qed.

Lemma reset_timer_luz_zera_contador_witness :
  g_segundos_de_luz_hoje exemplo_c9 = 2
  /\ exists s', processa_comando exemplo_c9 = Some s'
                /\ g_segundos_de_luz_hoje s' = 0
                /\ cfg s' = cfg exemplo_c9.
Proof.
  split; [reflexivity|].
  destruct (reset_timer_luz_zera_contador exemplo_c9)
    as (s' & Hs' & Hseg & _); try reflexivity.
  exists s'. split; [exact Hs'|]. split; [exact Hseg|].
  vm_compute in Hs'. injection Hs' as <-. reflexivity.
Defined.

(** ** Receiving lines (C6, C10) *)

Lemma rx_apos_app fifo1 fifo2 r :
  rx_apos (fifo1 ++ fifo2) r = rx_apos fifo2 (rx_apos fifo1 r).
Proof. unfold rx_apos. apply fold_left_app. Qed.

(** Characters of a line are stored one after the other from the cursor
    on, as long as they stay below the last cell. *)
Lemma rx_apos_acumula linha : forall pre rest pronto,
  sem_terminador linha = true ->
  (length pre + length linha <= 99)%nat ->
  (length linha <= length rest)%nat ->
  rx_apos linha {| g_rx_buffer := pre ++ rest;
                   g_rx_idx := Z.of_nat (length pre);
                   g_comando_pronto := pronto |}
  = {| g_rx_buffer := pre ++ linha ++ drop (length linha) rest;
       g_rx_idx := Z.of_nat (length pre + length linha);
       g_comando_pronto := pronto |}.
Proof.
  induction linha as [|c linha IH]; intros pre rest pronto Hnt Hlen Hrest.
  - simpl. now rewrite Nat.add_0_r.
  - simpl in Hnt. apply andb_true_iff in Hnt. destruct Hnt as [Hc Hnt].
    apply negb_true_iff in Hc.
    destruct rest as [|x rest]; [simpl in Hrest; lia|].
    simpl in Hlen, Hrest.
    change (rx_apos (c :: linha) ?r) with (rx_apos linha (rx_apos_char c r)).
    unfold rx_apos_char. rewrite Hc. cbn [g_rx_idx g_rx_buffer g_comando_pronto].
    destruct (Z.ltb_spec (Z.of_nat (length pre)) 99) as [_|Hge]; [|lia].
    rewrite Nat2Z.id, insert_app_r_alt, Nat.sub_diag by lia.
    cbn [insert list_insert].
    replace (Z.of_nat (length pre) + 1) with (Z.of_nat (length (pre ++ [c])))
      by (rewrite length_app; simpl; lia).
    replace (pre ++ c :: rest) with ((pre ++ [c]) ++ rest)
      by now rewrite <- app_assoc.
    rewrite IH; [|assumption|rewrite length_app; simpl; lia|lia].
    rewrite <- app_assoc, length_app. simpl. f_equal. f_equal. lia.
Qed.

(** With the cursor on the last cell, characters are dropped. *)
Lemma rx_apos_descarta linha : forall r,
  sem_terminador linha = true -> g_rx_idx r = 99 -> rx_apos linha r = r.
Proof.
  induction linha as [|c linha IH]; intros r Hnt Hidx; [reflexivity|].
  simpl in Hnt. apply andb_true_iff in Hnt. destruct Hnt as [Hc Hnt].
  apply negb_true_iff in Hc.
  change (rx_apos (c :: linha) r) with (rx_apos linha (rx_apos_char c r)).
  unfold rx_apos_char. rewrite Hc, Hidx. simpl. apply IH; assumption.
Qed.

Lemma sem_terminador_app l1 l2 :
  sem_terminador (l1 ++ l2) = sem_terminador l1 && sem_terminador l2.
Proof. apply forallb_app. Qed.

(** A whole line followed by its terminator, received from cursor 0: the
    first 99 characters at most are in the buffer, a NUL follows them, the
    cursor is back at 0 and the ready flag is set. *)
Lemma rx_apos_linha linha t r :
  rx_inv r = true -> g_rx_idx r = 0 ->
  sem_terminador linha = true -> linha <> [] -> is_terminator t = true ->
  rx_apos (linha ++ [t]) r
  = {| g_rx_buffer :=
         take 99 linha ++ NUL :: drop (S (length (take 99 linha))) (g_rx_buffer r);
       g_rx_idx := 0;
       g_comando_pronto := true |}.
Proof.
  intros Hinv Hidx Hnt Hne Ht.
  apply rx_inv_spec in Hinv. destruct Hinv as (Hlen & _ & _).
  destruct r as [buf idx pronto]. simpl in *. subst idx.
  rewrite <- (take_drop 99 linha) at 1.
  rewrite <- (take_drop 99 linha), sem_terminador_app in Hnt.
  apply andb_true_iff in Hnt. destruct Hnt as [Hnt1 Hnt2].
  rewrite !rx_apos_app.
  pose proof (rx_apos_acumula (take 99 linha) [] buf pronto Hnt1) as Hacc.
  cbn [app length Nat.add] in Hacc. change (Z.of_nat 0) with 0 in Hacc.
  rewrite Hacc by (rewrite length_take; lia). clear Hacc.
  assert (Hn : (0 < length (take 99 linha) <= 99)%nat).
  { rewrite length_take. destruct linha; [congruence|cbn [length]; lia]. }
  set (n := length (take 99 linha)) in *.
  assert (Hrest : rx_apos (drop 99 linha)
            {| g_rx_buffer := take 99 linha ++ drop n buf;
               g_rx_idx := Z.of_nat n; g_comando_pronto := pronto |}
          = {| g_rx_buffer := take 99 linha ++ drop n buf;
               g_rx_idx := Z.of_nat n; g_comando_pronto := pronto |}).
  { destruct (decide (n = 99%nat)) as [E|E].
    - apply rx_apos_descarta; [exact Hnt2|simpl; lia].
    - replace (drop 99 linha) with (@nil ascii); [reflexivity|].
      symmetry. apply drop_ge. subst n. rewrite length_take in E, Hn. lia. }
  rewrite Hrest. simpl. unfold rx_apos_char. rewrite Ht.
  cbn [g_rx_idx g_rx_buffer].
  destruct (Z.ltb_spec 0 (Z.of_nat n)) as [_|?]; [|lia].
  f_equal. rewrite Nat2Z.id.
  rewrite insert_app_r_alt by (fold n; lia). fold n. rewrite Nat.sub_diag.
  destruct (drop n buf) as [|x rest] eqn:Hd.
  { apply (f_equal length) in Hd. rewrite length_drop in Hd. simpl in Hd. lia. }
  simpl. f_equal. f_equal.
  replace (S n) with (n + 1)%nat by lia.
  rewrite <- drop_drop, Hd. reflexivity.
Qed.

(** Reading back a string stored in front of a NUL. *)
Lemma c_str_app (l rest : list ascii) :
  forallb (fun c => negb (Ascii.eqb c NUL)) l = true ->
  c_str (l ++ NUL :: rest) = Some l.
Proof.
  induction l as [|c l IH]; simpl; [reflexivity|].
  rewrite andb_true_iff, negb_true_iff. intros [-> Hl].
  now rewrite (IH Hl).
Qed.


Lemma on_uart_rx_char_casos c s :
  rx_inv (rx s) = true ->
  exists s1, on_uart_rx_char c s = Some s1 /\ casos_do_char c s s1.
Proof.
  intros H. apply rx_inv_spec in H. destruct H as (Hlen & Hidx & _).
  unfold on_uart_rx_char, casos_do_char, RX_BUFFER_SIZE.
  change (100 - 1) with 99.
  destruct (is_terminator c); [destruct (Z.ltb_spec 0 (g_rx_idx (rx s)))|
                               destruct (Z.ltb_spec (g_rx_idx (rx s)) 99)];
    rewrite ?array_set_Some by lia; simpl;
    eexists; (split; [reflexivity|]);
    repeat split; intros; try discriminate; try lia; reflexivity.
Qed.

Lemma array_set_in_bounds {A} (a a' : list A) i v :
  array_set a i v = Some a' -> 0 <= i < Z.of_nat (length a).
Proof.
  unfold array_set. destruct (in_bounds a i) eqn:E; [|discriminate].
  intros _. now apply in_bounds_spec.
Qed.

(** C10. In every state reachable from the start of the loop and for
    every sequence of received bytes, [on_uart_rx] is defined: each of its
    writes goes through [array_set], which is defined only for an index
    inside the 100 cells. A character that is not a terminator is stored at
    the cursor when the cursor is below 99 and is dropped otherwise; a
    terminator writes the NUL at the cursor; the cursor stays in [0, 99].
    A line of more than 99 characters received from cursor 0 is delivered
    as its first 99 characters followed by the NUL. *)
Theorem rx_nunca_excede_o_buffer (evs : list event) (fifo : list ascii) :
  forallb event_ok evs = true ->
  exists s s',
    run evs main_init = Some s
    /\ on_uart_rx fifo s = Some s'
    /\ length (g_rx_buffer (rx s')) = 100%nat
    /\ 0 <= g_rx_idx (rx s') <= 99
    /\ (forall c, exists s1,
          on_uart_rx_char c s = Some s1 /\ casos_do_char c s s1)
    /\ (forall linha t,
          g_rx_idx (rx s) = 0 -> sem_terminador linha = true ->
          (99 < length linha)%nat -> is_terminator t = true ->
          exists s2,
            on_uart_rx (linha ++ [t]) s = Some s2
            /\ g_rx_buffer (rx s2) = take 99 linha ++ [NUL]
            /\ g_rx_idx (rx s2) = 0
            /\ g_comando_pronto (rx s2) = true).
Proof.
  intros Hok.
  destruct (run_inv evs main_init inv_main_init Hok) as (s & Hrun & Hinv).
  apply inv_spec in Hinv. destruct Hinv as [_ Hrx].
  destruct (on_uart_rx_spec fifo s Hrx) as (s' & Hs' & Hrx' & _).
  exists s, s'. split; [exact Hrun|]. split; [exact Hs'|].
  pose proof (rx_apos_inv fifo _ Hrx) as Hinv'. rewrite <- Hrx' in Hinv'.
  apply rx_inv_spec in Hinv'. destruct Hinv' as (Hlen' & Hidx' & _).
  split; [exact Hlen'|]. split; [exact Hidx'|].
  split; [intros c; apply on_uart_rx_char_casos, Hrx|].
  intros linha t Hidx Hnt Hlong Ht.
  destruct (on_uart_rx_spec (linha ++ [t]) s Hrx) as (s2 & Hs2 & Hrx2 & _).
  exists s2. split; [exact Hs2|].
  assert (Hne : linha <> []) by (intros ->; simpl in Hlong; lia).
  rewrite Hrx2, (rx_apos_linha linha t (rx s) Hrx Hidx Hnt Hne Ht).
  cbn [g_rx_buffer g_rx_idx g_comando_pronto].
  repeat split. f_equal. f_equal.
  apply rx_inv_spec in Hrx. destruct Hrx as (Hlen & _).
  apply drop_ge. rewrite length_take. lia.
Qed.

Lemma rx_nunca_excede_o_buffer_witness :
  exists s s',
    run exemplo_c10 main_init = Some s
    /\ on_uart_rx (replicate 120 "A"%char ++ [LF]) s = Some s'
    /\ g_rx_buffer (rx s') = replicate 99 "A"%char ++ [NUL]
    /\ 0 <= g_rx_idx (rx s') <= 99.
Proof.
  destruct (rx_nunca_excede_o_buffer exemplo_c10
              (replicate 120 "A"%char ++ [LF]) eq_refl)
    as (s & s' & Hrun & Hs' & _ & Hidx & _ & Hlinha).
  exists s, s'. split; [exact Hrun|]. split; [exact Hs'|]. split; [|exact Hidx].
  destruct (Hlinha (replicate 120 "A"%char) LF) as (s2 & Hs2 & Hbuf & _);
    try reflexivity.
  - vm_compute in Hrun. injection Hrun as <-. reflexivity.
  - vm_compute. lia.
  - rewrite Hs' in Hs2. injection Hs2 as <-. exact Hbuf.
Defined.

(** ** The ready-flag handshake (C6) *)




(** * Further properties of the code *)

(** ** Tick counters and elapsed time *)

Lemma to_uint32_range x : 0 <= to_uint32 x < 2 ^ 32.
Proof. unfold to_uint32. apply Z.mod_pos_bound. lia. Qed.

Lemma to_uint32_le x : 0 <= x -> to_uint32 x <= x.
Proof. intros H. unfold to_uint32. apply Z.mod_le; lia. Qed.

(** [interpreta] either keeps the light counter or clears it. *)
Lemma interpreta_segundos cmd s :
  g_segundos_de_luz_hoje (interpreta cmd s) = g_segundos_de_luz_hoje s
  \/ g_segundos_de_luz_hoje (interpreta cmd s) = 0.
Proof.
  unfold interpreta.
  repeat match goal with
         | |- context [if ?b then _ else _] => destruct b
         | |- context [match valor_str ?c with _ => _ end] =>
             destruct (valor_str c)
         end; simpl; auto.
Qed.

(** What a pass of the loop leaves of the state the handlers own. *)
Lemma main_loop_segundos agora s :
  inv s = true ->
  exists s',
    main_loop agora s = Some s' /\ inv s' = true
    /\ filt s' = filt s /\ g_contador_1s s' = g_contador_1s s
    /\ g_rx_idx (rx s') = g_rx_idx (rx s)
    /\ (g_segundos_de_luz_hoje s' = g_segundos_de_luz_hoje s
        \/ g_segundos_de_luz_hoje s' = 0).
Proof.
  intros Hinv.
  destruct (main_loop_inv agora s Hinv) as (s' & Hs' & Hinv' & Hf & Hc & Hi).
  exists s'. repeat split; try assumption.
  apply inv_spec in Hinv. destruct Hinv as [_ Hrx].
  destruct (main_loop_spec agora s Hrx) as (s1 & Hs1 & Hloop & _).
  rewrite Hloop in Hs'. injection Hs' as <-.
  destruct (telemetria_frame agora (atuadores s1)) as (_ & _ & -> & _).
  destruct (atuadores_spec s1) as (_ & _ & -> & _).
  destruct (g_comando_pronto (rx s)).
  - destruct (processa_comando_spec s Hrx)
      as (cmd & s1' & _ & Hp & _ & _ & Hseg & _).
    rewrite Hp in Hs1. injection Hs1 as <-. rewrite Hseg.
    apply (interpreta_segundos cmd (sem_pronto s)).
  - injection Hs1 as <-. now left.
Qed.

(** The potential [10 * seconds + ticks of the current second] grows by at
    most one per tick and never otherwise. *)
Lemma run_contadores evs : forall s,
  inv s = true -> forallb event_ok evs = true ->
  0 <= g_contador_1s s < 10 -> 0 <= g_segundos_de_luz_hoje s ->
  exists s',
    run evs s = Some s' /\ inv s' = true
    /\ g_contador_1s s' = (g_contador_1s s + n_ticks evs) mod 10
    /\ avg_idx (filt s') = (avg_idx (filt s) + n_ticks evs) mod 32
    /\ 0 <= g_segundos_de_luz_hoje s'
    /\ 10 * g_segundos_de_luz_hoje s' + g_contador_1s s'
       <= 10 * g_segundos_de_luz_hoje s + g_contador_1s s + n_ticks evs.
Proof.
  assert (Hn : forall l, 0 <= n_ticks l).
  { intros l. induction l as [|[| |] l IH]; cbn [n_ticks]; lia. }
  induction evs as [|e evs IH]; intros s Hinv Hok Hc Hseg.
  - exists s. simpl. rewrite !Z.add_0_r.
    assert (Hidx : 0 <= avg_idx (filt s) < 32).
    { apply inv_spec in Hinv. destruct Hinv as [Hf _].
      apply filtro_inv_spec in Hf. tauto. }
    rewrite !Z.mod_small by lia. repeat split; try assumption; lia.
  - simpl in Hok. apply andb_true_iff in Hok. destruct Hok as [He Hevs].
    pose proof (Hn evs) as Hnev.
    destruct e as [l n u|fifo|agora].
    + destruct (timer_callback_spec l n u s Hinv He)
        as (s1 & Hs1 & Hinv1 & _ & _ & _ & Hidx1 & _ & _ & _ & _ & _ & Hc1 & Hseg1).
      assert (Hidx : 0 <= avg_idx (filt s) < 32).
      { apply inv_spec in Hinv. destruct Hinv as [Hf _].
        apply filtro_inv_spec in Hf. tauto. }
      rewrite to_uint32_small in Hc1, Hseg1 by lia.
      pose proof (to_uint32_range (g_segundos_de_luz_hoje s + 1)) as Hr.
      pose proof (to_uint32_le (g_segundos_de_luz_hoje s + 1)) as Hle.
      assert (Hc1' : 0 <= g_contador_1s s1 < 10
                     /\ g_contador_1s s1 = (g_contador_1s s + 1) mod 10
                     /\ 0 <= g_segundos_de_luz_hoje s1
                     /\ 10 * g_segundos_de_luz_hoje s1 + g_contador_1s s1
                        <= 10 * g_segundos_de_luz_hoje s + g_contador_1s s + 1).
      { destruct (Z.leb_spec 10 (g_contador_1s s + 1)) as [Hge|Hlt].
        - assert (g_contador_1s s = 9) as E by lia.
          rewrite E in *. rewrite Hc1.
          destruct (gpio s LED_PIN || _) in Hseg1; simpl in Hseg1;
            rewrite Hseg1; repeat split; try lia; reflexivity.
        - simpl in Hseg1. rewrite Hc1, Hseg1, Z.mod_small by lia. lia. }
      destruct Hc1' as (Hr1 & Hm1 & Hs0 & Hpot).
      destruct (IH s1 Hinv1 Hevs Hr1 Hs0)
        as (s' & Hrun & Hinv' & Hc' & Hi' & Hseg' & Hpot').
      exists s'. simpl. rewrite Hs1. simpl.
      split; [exact Hrun|]. split; [exact Hinv'|].
      split; [|split; [|split; [exact Hseg'|lia]]].
      * rewrite Hc', Hm1, Z.add_mod_idemp_l by lia. f_equal. lia.
      * rewrite Hi', Hidx1.
        replace (Z.rem (avg_idx (filt s) + 1) 32)
          with ((avg_idx (filt s) + 1) mod 32)
          by (symmetry; apply Z.rem_mod_nonneg; lia).
        rewrite Z.add_mod_idemp_l by lia. f_equal. lia.
    + assert (Hrx : rx_inv (rx s) = true) by (apply inv_spec in Hinv; tauto).
      destruct (step_inv (Rx fifo) s Hinv He) as (s1 & Hs1 & Hinv1).
      destruct (on_uart_rx_spec fifo s Hrx) as (s1' & Hs1' & _ & Hfr).
      simpl in Hs1. rewrite Hs1' in Hs1. injection Hs1 as ->.
      destruct Hfr as (Hf & _ & Hsg & Hct & _).
      destruct (IH s1 Hinv1 Hevs) as (s' & Hrun & Hinv' & Hc' & Hi' & Hseg' & Hpot');
        [lia|lia|].
      exists s'. simpl. rewrite Hs1'. simpl.
      split; [exact Hrun|]. split; [exact Hinv'|].
      split; [rewrite Hc', Hct; reflexivity|].
      split; [rewrite Hi', Hf; reflexivity|].
      split; [exact Hseg'|lia].
    + destruct (main_loop_segundos agora s Hinv)
        as (s1 & Hs1 & Hinv1 & Hf & Hct & _ & Hsg).
      destruct (IH s1 Hinv1 Hevs) as (s' & Hrun & Hinv' & Hc' & Hi' & Hseg' & Hpot');
        [lia|lia|].
      exists s'. simpl. rewrite Hs1. simpl.
      split; [exact Hrun|]. split; [exact Hinv'|].
      split; [rewrite Hc', Hct; reflexivity|].
      split; [rewrite Hi', Hf; reflexivity|].
      split; [exact Hseg'|lia].
Qed.

(** X1. Along every execution from the start of the loop the sub-second
    counter is the number of timer ticks modulo 10, hence within 0..9,
    and the shared ring index is that number modulo 32. *)
Theorem contadores_seguem_os_ticks (evs : list event) :
  forallb event_ok evs = true ->
  exists s,
    run evs main_init = Some s
    /\ g_contador_1s s = n_ticks evs mod 10
    /\ 0 <= g_contador_1s s <= 9
    /\ avg_idx (filt s) = n_ticks evs mod 32.
Proof.
  intros Hok.
  destruct (run_contadores evs main_init inv_main_init Hok)
    as (s & Hrun & _ & Hc & Hi & _); [simpl; lia|simpl; lia|].
  exists s. cbn [main_init g_contador_1s filt avg_idx] in Hc, Hi.
  rewrite Z.add_0_l in Hc, Hi. rewrite Hc, Hi.
  pose proof (Z.mod_pos_bound (n_ticks evs) 10).
  repeat split; try assumption; lia.
Qed.

Lemma contadores_seguem_os_ticks_witness :
  exists s,
    run exemplo_c1 main_init = Some s
    /\ g_contador_1s s = 5 /\ avg_idx (filt s) = 3.
Proof.
  destruct (contadores_seguem_os_ticks exemplo_c1) as (s & Hrun & Hc & _ & Hi);
    [calcula|].
  exists s. split; [exact Hrun|]. split; [rewrite Hc|rewrite Hi]; calcula.
Defined.

(** X2. Along every execution from the start of the loop the light
    counter is never negative and never exceeds the whole seconds of ticks
    elapsed: ten ticks count for one second at most, and nothing but ticks
    makes it grow. *)
Theorem segundos_de_luz_limitados (evs : list event) :
  forallb event_ok evs = true ->
  exists s,
    run evs main_init = Some s
    /\ 0 <= g_segundos_de_luz_hoje s <= n_ticks evs / 10.
Proof.
  intros Hok.
  destruct (run_contadores evs main_init inv_main_init Hok)
    as (s & Hrun & _ & Hc & _ & Hseg & Hpot); [simpl; lia|simpl; lia|].
  exists s. split; [exact Hrun|]. split; [exact Hseg|].
  cbn [main_init g_contador_1s g_segundos_de_luz_hoje] in Hpot, Hc.
  rewrite Z.add_0_l in Hc.
  pose proof (Z.mod_pos_bound (n_ticks evs) 10).
  apply Z.div_le_lower_bound; lia.
Qed.

Lemma segundos_de_luz_limitados_witness :
  exists s,
    run exemplo_c1 main_init = Some s
    /\ 0 <= g_segundos_de_luz_hoje s <= 3.
Proof.
  destruct (segundos_de_luz_limitados exemplo_c1) as (s & Hrun & Hseg); [calcula|].
  exists s. split; [exact Hrun|].
  replace 3 with (n_ticks exemplo_c1 / 10) by calcula. exact Hseg.
Defined.

(** ** The filtered value stays within the window *)

Lemma execucao_medias (evs : list event) :
  forallb event_ok evs = true ->
  exists s,
    run evs main_init = Some s /\ inv s = true
    /\ media_da_janela (ldr_buffer (filt s)) (avg_idx (filt s))
         (ldr_sum (filt s)) (g_ldr_filtrado (filt s)) (ldr_amostras evs)
    /\ media_da_janela (ntc_buffer (filt s)) (avg_idx (filt s))
         (ntc_sum (filt s)) (g_ntc_filtrado (filt s)) (ntc_amostras evs)
    /\ media_da_janela (umidade_buffer (filt s)) (avg_idx (filt s))
         (umidade_sum (filt s)) (g_umidade_filtrada (filt s))
         (umidade_amostras evs).
Proof.
  intros Hok.
  destruct (run_inv evs main_init inv_main_init Hok) as (s & Hrun & Hinv).
  destruct (inv_canais s Hinv) as (Cl & Cn & Cu).
  assert (Hcanal : forall buf_of amostra,
    (forall l n u s0 s', inv s0 = true -> event_ok (Timer l n u) = true ->
       timer_callback l n u s0 = Some s' ->
       buf_of (filt s')
       = <[Z.to_nat (avg_idx (filt s0)) := amostra l n u]> (buf_of (filt s0))) ->
    (forall s0, inv s0 = true -> length (buf_of (filt s0)) = 32%nat) ->
    buf_of (filt main_init) = replicate 32 0 ->
    ring (buf_of (filt s)) (avg_idx (filt s)) (janela (amostras amostra evs))).
  { intros buf_of amostra Ht Hl H0.
    destruct (run_ring buf_of amostra Ht Hl evs main_init (replicate 32 0))
      as (s2 & Hrun2 & _ & Hr); try reflexivity; try exact Hok.
    - rewrite H0. exact ring_init.
    - rewrite Hrun in Hrun2. injection Hrun2 as <-. exact Hr. }
  exists s. split; [exact Hrun|]. split; [exact Hinv|].
  split; [|split]; apply media_da_janela_intro; try assumption; apply Hcanal;
    try reflexivity.
  - intros l n u s0 s' H0 He Ht.
    destruct (timer_callback_spec l n u s0 H0 He) as (s1 & Hs1 & _ & Hb & _).
    congruence.
  - intros s0 H0. destruct (inv_canais s0 H0) as (H & _).
    apply canal_inv_spec in H. tauto.
  - intros l n u s0 s' H0 He Ht.
    destruct (timer_callback_spec l n u s0 H0 He) as (s1 & Hs1 & _ & _ & Hb & _).
    congruence.
  - intros s0 H0. destruct (inv_canais s0 H0) as (_ & H & _).
    apply canal_inv_spec in H. tauto.
  - intros l n u s0 s' H0 He Ht.
    destruct (timer_callback_spec l n u s0 H0 He)
      as (s1 & Hs1 & _ & _ & _ & Hb & _).
    congruence.
  - intros s0 H0. destruct (inv_canais s0 H0) as (_ & _ & H).
    apply canal_inv_spec in H. tauto.
Qed.

Lemma soma_entre (lo hi : Z) (l : list Z) :
  forallb (fun x => (lo <=? x) && (x <=? hi)) l = true ->
  lo * Z.of_nat (length l) <= soma l <= hi * Z.of_nat (length l).
Proof.
  induction l as [|x l IH]; [simpl; lia|].
  cbn [forallb]. rewrite !andb_true_iff. intros [[Hlo Hhi] Hl].
  specialize (IH Hl). change (soma (x :: l)) with (x + soma l).
  cbn [length]. lia.
Qed.

Lemma media_entre buf idx sum filtrado (am : list Z) (lo hi : Z) :
  media_da_janela buf idx sum filtrado am ->
  (32 <= length am)%nat ->
  forallb (fun x => (lo <=? x) && (x <=? hi)) (ultimas 32 am) = true ->
  lo <= filtrado <= hi.
Proof.
  intros (_ & _ & _ & _ & Hf) Hlen Hall.
  pose proof (soma_entre lo hi _ Hall) as Hs.
  assert (Hl32 : length (ultimas 32 am) = 32%nat)
    by (unfold ultimas; rewrite length_drop; lia).
  rewrite Hl32 in Hs.
  rewrite Hf. split.
  - apply Z.div_le_lower_bound; lia.
  - apply Z.div_le_upper_bound; lia.
Qed.

(** X3. Once 32 samples have been fed, the filtered value of each channel
    lies between the smallest and the largest of its last 32 samples; so a
    reading held constant for 32 ticks is published exactly, and the filter
    never overshoots its input. *)
Theorem filtrado_entre_min_e_max (evs : list event) :
  forallb event_ok evs = true ->
  (32 <= n_ticks evs) ->
  exists s,
    run evs main_init = Some s
    /\ forall lo hi,
         (forallb (fun x => (lo <=? x) && (x <=? hi))
            (ultimas 32 (ldr_amostras evs)) = true ->
          lo <= g_ldr_filtrado (filt s) <= hi)
         /\ (forallb (fun x => (lo <=? x) && (x <=? hi))
               (ultimas 32 (ntc_amostras evs)) = true ->
             lo <= g_ntc_filtrado (filt s) <= hi)
         /\ (forallb (fun x => (lo <=? x) && (x <=? hi))
               (ultimas 32 (umidade_amostras evs)) = true ->
             lo <= g_umidade_filtrada (filt s) <= hi).
Proof.
  intros Hok Hn.
  assert (Hlen : forall amostra,
             Z.of_nat (length (amostras amostra evs)) = n_ticks evs).
  { intros amostra. clear. induction evs as [|[l n u|f|a] evs IH];
      cbn [amostras omap list_omap n_ticks length] in *; try exact IH.
    - reflexivity.
    - unfold amostras in IH. cbn [length]. lia. }
  destruct (execucao_medias evs Hok) as (s & Hrun & _ & Ml & Mn & Mu).
  exists s. split; [exact Hrun|]. intros lo hi.
  split; [|split]; intros Hall.
  - eapply media_entre; [exact Ml| |exact Hall].
    unfold ldr_amostras. specialize (Hlen (fun l _ _ => l)). lia.
  - eapply media_entre; [exact Mn| |exact Hall].
    unfold ntc_amostras. specialize (Hlen (fun _ n _ => n)). lia.
  - eapply media_entre; [exact Mu| |exact Hall].
    unfold umidade_amostras. specialize (Hlen (fun _ _ u => u)). lia.
Qed.

Lemma filtrado_entre_min_e_max_witness :
  exists s,
    run (repeat (Timer 9 9 9) 7 ++ repeat (Timer 1234 2500 4000) 32) main_init
    = Some s
    /\ g_ldr_filtrado (filt s) = 1234
    /\ g_ntc_filtrado (filt s) = 2500
    /\ g_umidade_filtrada (filt s) = 4000.
Proof.
  destruct (filtrado_entre_min_e_max
              (repeat (Timer 9 9 9) 7 ++ repeat (Timer 1234 2500 4000) 32))
    as (s & Hrun & Hb); [calcula|vm_compute; discriminate|].
  exists s. split; [exact Hrun|].
  destruct (Hb 1234 1234) as (Hl & _ & _).
  destruct (Hb 2500 2500) as (_ & Hn & _).
  destruct (Hb 4000 4000) as (_ & _ & Hu).
  specialize (Hl ltac:(calcula)). specialize (Hn ltac:(calcula)).
  specialize (Hu ltac:(calcula)). lia.
Defined.

(** ** Telemetry frames *)

Lemma soma_fold (l : list Z) : forall a,
  fold_left (fun soma b => to_uint8 (soma + b)) l (a mod 256)
  = (a + soma l) mod 256.
Proof.
  induction l as [|b l IH]; intros a; simpl.
  - now rewrite Z.add_0_r.
  - change (to_uint8 (a mod 256 + b)) with ((a mod 256 + b) mod 256).
    rewrite IH. change (soma (b :: l)) with (b + soma l).
    replace (a mod 256 + b + soma l) with (a mod 256 + (b + soma l)) by lia.
    now rewrite Z.add_mod_idemp_l by lia.
Qed.

Lemma byte_range x : 0 <= to_uint8 (Z.land x 255) < 256.
Proof. unfold to_uint8. apply Z.mod_pos_bound. lia. Qed.

(** Whatever the state, the frame built from it passes the receiver's
    checks. *)
Lemma packet_ok s : quadro_ok (packet s) = true.
Proof.
  unfold quadro_ok, packet.
  set (p := [_; _; _; _; _; _; _; _; _; _; _]).
  assert (Hchk : fold_left (fun soma b => to_uint8 (soma + b)) (take 11 p) 0
                 = soma p mod 256).
  { change (take 11 p) with p. apply (soma_fold p 0). }
  rewrite Hchk.
  assert (Hbytes : forallb (fun b => (0 <=? b) && (b <? 256)) p = true).
  { subst p. cbn [forallb]. rewrite !andb_true_iff.
    repeat split;
      try (apply Z.leb_le, byte_range); try (apply Z.ltb_lt, byte_range);
      destruct (gpio_get LED_PIN s); reflexivity. }
  rewrite forallb_app, Hbytes.
  assert (Hm : 0 <= soma p mod 256 < 256) by (apply Z.mod_pos_bound; lia).
  cbn [forallb andb].
  replace ((0 <=? soma p mod 256) && (soma p mod 256 <? 256)) with true
    by (symmetry; apply andb_true_iff; split;
        [apply Z.leb_le|apply Z.ltb_lt]; lia).
  subst p. rewrite !andb_true_iff, !bool_decide_eq_true. repeat split.
Qed.

Lemma main_loop_uart_tx agora s :
  rx_inv (rx s) = true ->
  exists s' x,
    main_loop agora s = Some s'
    /\ (uart_tx s' = uart_tx s \/ uart_tx s' = uart_tx s ++ [packet x]).
Proof.
  intros Hrx.
  destruct (main_loop_spec agora s Hrx) as (s1 & Hs1 & Hloop & _).
  exists (telemetria agora (atuadores s1)), (atuadores s1).
  split; [exact Hloop|].
  assert (Htx : uart_tx (atuadores s1) = uart_tx s).
  { destruct (atuadores_spec s1) as (_ & _ & _ & _ & _ & _ & -> & _).
    destruct (g_comando_pronto (rx s)).
    - destruct (processa_comando_spec s Hrx)
        as (cmd & s1' & _ & Hp & _ & _ & _ & _ & _ & _ & _ & Ht).
      rewrite Hp in Hs1. injection Hs1 as <-. exact Ht.
    - now injection Hs1 as <-. }
  unfold telemetria.
  destruct (1000 <=? to_uint32 (agora - ultimo_envio (atuadores s1)));
    simpl; rewrite Htx; auto.
Qed.

Lemma run_quadros evs : forall s,
  inv s = true -> forallb event_ok evs = true ->
  forallb quadro_ok (uart_tx s) = true ->
  exists s', run evs s = Some s' /\ forallb quadro_ok (uart_tx s') = true.
Proof.
  induction evs as [|e evs IH]; intros s Hinv Hok Hq.
  - exists s. now split.
  - simpl in Hok. apply andb_true_iff in Hok. destruct Hok as [He Hevs].
    destruct (step_inv e s Hinv He) as (s1 & Hs1 & Hinv1).
    assert (Hq1 : forallb quadro_ok (uart_tx s1) = true).
    { destruct e as [l n u|fifo|agora]; simpl in Hs1.
      - destruct (timer_callback_spec l n u s Hinv He)
          as (s1' & Hs1' & _ & _ & _ & _ & _ & _ & _ & _ & _ & Htx & _).
        rewrite Hs1 in Hs1'. injection Hs1' as <-. now rewrite Htx.
      - apply inv_spec in Hinv. destruct Hinv as [_ Hrx].
        destruct (on_uart_rx_spec fifo s Hrx) as (s1' & Hs1' & _ & Hfr).
        rewrite Hs1 in Hs1'. injection Hs1' as <-.
        destruct Hfr as (_ & _ & _ & _ & _ & _ & ->). exact Hq.
      - apply inv_spec in Hinv. destruct Hinv as [_ Hrx].
        destruct (main_loop_uart_tx agora s Hrx) as (s1' & x & Hs1' & [Ht|Ht]).
        + rewrite Hs1 in Hs1'. injection Hs1' as <-. now rewrite Ht.
        + rewrite Hs1 in Hs1'. injection Hs1' as <-.
          rewrite Ht, forallb_app, Hq. simpl. now rewrite packet_ok. }
    destruct (IH s1 Hinv1 Hevs Hq1) as (s' & Hrun & Hq').
    exists s'. simpl. rewrite Hs1. simpl. now split.
Qed.

(** X4. Every frame ever written to the UART, along every execution from
    the start of the loop, is 13 bytes long, each byte within 0..255, its
    twelfth byte the sum of the first eleven modulo 256 and its last byte
    0xAA. *)
Theorem todo_quadro_enviado_e_valido (evs : list event) :
  forallb event_ok evs = true ->
  exists s,
    run evs main_init = Some s
    /\ forallb quadro_ok (uart_tx s) = true.
Proof.
  intros Hok. apply run_quadros; [exact inv_main_init|exact Hok|reflexivity].
Qed.

Lemma todo_quadro_enviado_e_valido_witness :
  exists s,
    run (repeat (Timer 700 800 900) 40 ++ [Loop 1000; Loop 1500; Loop 2100])
      main_init = Some s
    /\ length (uart_tx s) = 2%nat
    /\ forallb quadro_ok (uart_tx s) = true.
Proof.
  destruct (todo_quadro_enviado_e_valido
              (repeat (Timer 700 800 900) 40 ++ [Loop 1000; Loop 1500; Loop 2100]))
    as (s & Hrun & Hq); [calcula|].
  exists s. split; [exact Hrun|]. split; [|exact Hq].
  vm_compute in Hrun. injection Hrun as <-. reflexivity.
Defined.

Lemma be16_roundtrip x :
  0 <= x < 2 ^ 16 ->
  to_uint8 (Z.land (Z.shiftr x 8) 255) * 256 + to_uint8 (Z.land x 255) = x.
Proof.
  intros Hx. unfold to_uint8. change 255 with (Z.ones 8).
  rewrite !Z.land_ones, Z.shiftr_div_pow2 by lia.
  change (2 ^ 8) with 256. rewrite !Z.mod_mod by lia.
  pose proof (Z.div_mod x 256 ltac:(lia)).
  assert (0 <= x / 256 < 256)
    by (split; [apply Z.div_pos|apply Z.div_lt_upper_bound]; lia).
  rewrite (Z.mod_small (x / 256)) by lia. lia.
Qed.

Lemma be32_roundtrip x :
  0 <= x < 2 ^ 32 ->
  ((to_uint8 (Z.land (Z.shiftr x 24) 255) * 256
    + to_uint8 (Z.land (Z.shiftr x 16) 255)) * 256
   + to_uint8 (Z.land (Z.shiftr x 8) 255)) * 256
  + to_uint8 (Z.land x 255) = x.
Proof.
  intros Hx. unfold to_uint8. change 255 with (Z.ones 8).
  rewrite !Z.land_ones, !Z.shiftr_div_pow2 by lia.
  change (2 ^ 8) with 256. change (2 ^ 16) with (256 * 256).
  change (2 ^ 24) with (256 * 256 * 256). rewrite !Z.mod_mod by lia.
  rewrite <- !Z.div_div by lia.
  pose proof (Z.div_mod x 256 ltac:(lia)).
  pose proof (Z.div_mod (x / 256) 256 ltac:(lia)).
  pose proof (Z.div_mod (x / 256 / 256) 256 ltac:(lia)).
  assert (0 <= x / 256 / 256 / 256 < 256).
  { split; [repeat apply Z.div_pos; lia|].
    repeat (apply Z.div_lt_upper_bound; [lia|]). lia. }
  rewrite (Z.mod_small (x / 256 / 256 / 256)) by lia. lia.
Qed.

(** X5. A receiver that checks the end marker and the checksum and reads
    the fields big-endian recovers from the frame exactly the three
    filtered values, the grow-light level and the light counter of the
    state it was built from, these being within their C types. *)
Theorem decodifica_packet (s : state) :
  is_uint16 (g_ldr_filtrado (filt s)) = true ->
  is_uint16 (g_ntc_filtrado (filt s)) = true ->
  is_uint16 (g_umidade_filtrada (filt s)) = true ->
  is_uint32 (g_segundos_de_luz_hoje s) = true ->
  decodifica (packet s)
  = Some (g_ldr_filtrado (filt s), g_ntc_filtrado (filt s),
          g_umidade_filtrada (filt s), gpio_get LED_PIN s,
          g_segundos_de_luz_hoje s).
Proof.
  intros Hl Hn Hu Hs.
  apply is_uint16_spec in Hl, Hn, Hu.
  assert (Hs' : 0 <= g_segundos_de_luz_hoje s < 2 ^ 32)
    by (unfold is_uint32 in Hs; apply andb_true_iff in Hs; lia).
  pose proof (packet_ok s) as Hok.
  unfold quadro_ok in Hok. rewrite !andb_true_iff, !bool_decide_eq_true in Hok.
  destruct Hok as [[_ Hsum] _].
  unfold packet in *.
  set (sm := fold_left _ _ _) in *.
  cbn [app decodifica] in *. cbn [lookup list_lookup take soma foldr] in Hsum.
  injection Hsum as Hsum.
  rewrite Z.eqb_refl. cbn [andb].
  replace (sm =? _) with true
    by (symmetry; apply Z.eqb_eq; rewrite Hsum; f_equal; lia).
  rewrite !be16_roundtrip, be32_roundtrip by assumption.
  destruct (gpio_get LED_PIN s); reflexivity.
Qed.

Lemma decodifica_packet_witness :
  decodifica (packet exemplo_c2) = Some (1000, 2000, 3000, true, 90000).
Proof. apply (decodifica_packet exemplo_c2); calcula. Defined.

(** X6. The telemetry gate measures elapsed time modulo 2^32: with the
    last emission at [u] and the clock [d] milliseconds later, wrapped or
    not, a frame is written exactly when [d >= 1000]; the emission time
    then becomes the clock value, and otherwise nothing changes. *)
Theorem telemetria_a_cada_segundo (s : state) (d : Z) :
  is_uint32 (ultimo_envio s) = true ->
  0 <= d < 2 ^ 32 ->
  (d < 1000 -> telemetria (to_uint32 (ultimo_envio s + d)) s = s)
  /\ (1000 <= d ->
      uart_tx (telemetria (to_uint32 (ultimo_envio s + d)) s)
      = uart_tx s ++ [packet s]
      /\ ultimo_envio (telemetria (to_uint32 (ultimo_envio s + d)) s)
         = to_uint32 (ultimo_envio s + d)).
Proof.
  intros Hu Hd.
  assert (Helapsed : to_uint32 (to_uint32 (ultimo_envio s + d) - ultimo_envio s)
                     = d).
  { unfold to_uint32. rewrite Zminus_mod_idemp_l.
    replace (ultimo_envio s + d - ultimo_envio s) with d by lia.
    apply Z.mod_small. exact Hd. }
  unfold telemetria. rewrite Helapsed.
  split; intros H.
  - destruct (Z.leb_spec 1000 d); [lia|reflexivity].
  - destruct (Z.leb_spec 1000 d); [|lia]. split; reflexivity.
Qed.

Lemma telemetria_a_cada_segundo_witness :
  uart_tx (telemetria 1203 (set_main (2 ^ 32 - 500) [] exemplo_c2))
  = [packet exemplo_c2]
  /\ telemetria 400 (set_main (2 ^ 32 - 500) [] exemplo_c2)
     = set_main (2 ^ 32 - 500) [] exemplo_c2.
Proof.
  destruct (telemetria_a_cada_segundo (set_main (2 ^ 32 - 500) [] exemplo_c2) 1703)
    as (_ & H1); [calcula|lia|].
  destruct (telemetria_a_cada_segundo (set_main (2 ^ 32 - 500) [] exemplo_c2) 900)
    as (H2 & _); [calcula|lia|].
  split.
  - destruct (H1 ltac:(lia)) as (Htx & _). exact Htx.
  - apply H2. lia.
Defined.

(** ** Pump and fan *)

Lemma atuadores_outros_pinos s p :
  p <> PUMP_PIN -> p <> FAN_PIN -> p <> LED_PIN ->
  gpio_get p (atuadores s) = gpio_get p s.
Proof.
  unfold PUMP_PIN, FAN_PIN, LED_PIN. intros H2 H6 H9.
  unfold atuadores, gpio_get, gpio_put, PUMP_PIN, FAN_PIN, LED_PIN.
  repeat match goal with
         | |- context [if ?b then _ else _] =>
             lazymatch b with
             | Z.eqb _ _ => fail
             | _ => destruct b
             end
         end;
    cbn [gpio set_gpio];
    destruct (Z.eqb_spec p 9); try lia;
    destruct (Z.eqb_spec p 6); try lia;
    destruct (Z.eqb_spec p 2); try lia; reflexivity.
Qed.

(** X7. One pass of the loop drives the pump high exactly when the
    filtered moisture is strictly above the moisture setpoint and the fan
    high exactly when the filtered temperature is strictly below the
    temperature setpoint, with the setpoints as the command processed in
    that same pass left them; equality switches both off, and no pin other
    than the three outputs changes. *)
Theorem bomba_e_ventilador_por_passagem (agora : Z) (s : state) :
  rx_inv (rx s) = true ->
  exists s1 s',
    (if g_comando_pronto (rx s) then processa_comando s else Some s) = Some s1
    /\ main_loop agora s = Some s'
    /\ (gpio_get PUMP_PIN s' = true <->
        g_umidade_filtrada (filt s) > g_umidade_setpoint_raw (cfg s1))
    /\ (gpio_get FAN_PIN s' = true <->
        g_ntc_filtrado (filt s) < g_temp_setpoint_raw (cfg s1))
    /\ (forall p, p <> PUMP_PIN -> p <> FAN_PIN -> p <> LED_PIN ->
                  gpio_get p s' = gpio_get p s).
Proof.
  intros Hrx.
  destruct (main_loop_spec agora s Hrx) as (s1 & Hs1 & Hloop & _ & Hf & _).
  exists s1, (telemetria agora (atuadores s1)).
  split; [exact Hs1|]. split; [exact Hloop|].
  destruct (telemetria_frame agora (atuadores s1)) as (_ & _ & _ & _ & _ & Tg).
  destruct (atuadores_spec s1) as (_ & _ & _ & _ & _ & _ & _ & Hp & Hfan & _).
  assert (Hg1 : gpio s1 = gpio s).
  { destruct (g_comando_pronto (rx s)).
    - destruct (processa_comando_spec s Hrx)
        as (cmd & s1' & _ & Hp' & _ & _ & _ & _ & _ & Hg & _).
      rewrite Hp' in Hs1. injection Hs1 as <-. exact Hg.
    - now injection Hs1 as <-. }
  unfold gpio_get in *. rewrite Tg, Hp, Hfan, Hf.
  split; [|split].
  - destruct (Z.gtb_spec (g_umidade_filtrada (filt s))
                (g_umidade_setpoint_raw (cfg s1))); split; intros; try lia;
      try reflexivity; discriminate.
  - destruct (Z.ltb_spec (g_ntc_filtrado (filt s))
                (g_temp_setpoint_raw (cfg s1))); split; intros; try lia;
      try reflexivity; discriminate.
  - intros p H2 H6 H9.
    pose proof (atuadores_outros_pinos s1 p H2 H6 H9) as Ho.
    unfold gpio_get in Ho. now rewrite Ho, Hg1.
Qed.

Lemma bomba_e_ventilador_por_passagem_witness :
  exists s',
    main_loop 7 (set_rx (rx (recebido "SET,TEMP,1700")) (filtrado_em 0 1650 3001))
    = Some s'
    /\ gpio_get PUMP_PIN s' = true /\ gpio_get FAN_PIN s' = true.
Proof.
  destruct (bomba_e_ventilador_por_passagem 7
              (set_rx (rx (recebido "SET,TEMP,1700")) (filtrado_em 0 1650 3001)))
    as (s1 & s' & Hs1 & Hloop & Hp & Hfan & _); [calcula|].
  exists s'. split; [exact Hloop|].
  vm_compute in Hs1. injection Hs1 as <-.
  split; [apply Hp|apply Hfan]; vm_compute; reflexivity.
Defined.

(** ** Terminators *)

(** X8. Terminators received while the cursor is at 0 are dropped: empty
    lines never raise the ready flag nor touch the buffer, and a line ended
    by several terminators in a row (CR LF) is delivered once, as with a
    single terminator. *)
Theorem terminadores_em_linha_vazia (s : state) (fifo : list ascii) :
  g_rx_idx (rx s) = 0 -> so_terminadores fifo = true ->
  on_uart_rx fifo s = Some s
  /\ forall s0 linha t,
       rx_inv (rx s0) = true -> g_rx_idx (rx s0) = 0 ->
       sem_terminador linha = true -> linha <> [] -> is_terminator t = true ->
       on_uart_rx (linha ++ t :: fifo) s0 = on_uart_rx (linha ++ [t]) s0.
Proof.
  intros Hidx Hfifo.
  assert (Hvazia : forall s1, g_rx_idx (rx s1) = 0 -> on_uart_rx fifo s1 = Some s1).
  { clear Hidx. induction fifo as [|c fifo IH]; intros s1 H1; [reflexivity|].
    simpl in Hfifo. apply andb_true_iff in Hfifo. destruct Hfifo as [Hc Hfifo].
    simpl. unfold on_uart_rx_char. rewrite Hc, H1. simpl. apply IH; assumption. }
  split; [apply Hvazia, Hidx|].
  intros s0 linha t Hrx H0 Hnt Hne Ht.
  replace (linha ++ t :: fifo) with ((linha ++ [t]) ++ fifo)
    by now rewrite <- app_assoc.
  rewrite on_uart_rx_app.
  destruct (on_uart_rx_spec (linha ++ [t]) s0 Hrx) as (s1 & Hs1 & Hrx1 & _).
  rewrite Hs1. simpl. apply Hvazia.
  rewrite Hrx1, (rx_apos_linha linha t (rx s0) Hrx H0 Hnt Hne Ht). reflexivity.
Qed.

Lemma terminadores_em_linha_vazia_witness :
  on_uart_rx ["013"; "010"; "010"]%char main_init = Some main_init
  /\ on_uart_rx (lit "SET,LDR,7" ++ ["013"; "010"]%char) main_init
     = on_uart_rx (lit "SET,LDR,7" ++ ["013"%char]) main_init.
Proof.
  split.
  - apply (terminadores_em_linha_vazia main_init ["013"; "010"; "010"]%char);
      calcula.
  - destruct (terminadores_em_linha_vazia main_init ["010"%char]) as (_ & H);
      [calcula|calcula|].
    apply (H main_init (lit "SET,LDR,7") "013"%char);
      try calcula. discriminate.
Defined.

(** ** Values of the [SET] commands *)

Lemma starts_with_sem_char (c : ascii) (needle : list ascii) : forall hay,
  In c needle -> forallb (fun x => negb (Ascii.eqb x c)) hay = true ->
  starts_with needle hay = false.
Proof.
  induction needle as [|n needle IH]; intros hay Hin Hhay; [destruct Hin|].
  destruct hay as [|h hay]; [reflexivity|].
  simpl in Hhay. apply andb_true_iff in Hhay. destruct Hhay as [Hh Hhay].
  apply negb_true_iff in Hh. simpl.
  destruct Hin as [->|Hin].
  - rewrite Ascii.eqb_sym, Hh. reflexivity.
  - rewrite (IH hay Hin Hhay). apply andb_false_r.
Qed.

(** A needle with a character the haystack lacks is not found. *)
Lemma strstr_sem_char (c : ascii) (needle hay : list ascii) :
  In c needle -> forallb (fun x => negb (Ascii.eqb x c)) hay = true ->
  strstr hay needle = None.
Proof.
  intros Hin. induction hay as [|h hay IH]; intros Hhay.
  - simpl. rewrite (starts_with_sem_char c needle [] Hin eq_refl). reflexivity.
  - cbn [strstr]. rewrite (starts_with_sem_char c needle (h :: hay) Hin Hhay).
    simpl in Hhay. apply andb_true_iff in Hhay. destruct Hhay as [_ Hhay].
    now rewrite (IH Hhay).
Qed.

Lemma strrchr_sem_char (c : ascii) (v : list ascii) :
  forallb (fun x => negb (Ascii.eqb x c)) v = true -> strrchr v c = None.
Proof.
  induction v as [|x v IH]; [reflexivity|].
  simpl. rewrite andb_true_iff, negb_true_iff. intros [Hx Hv].
  now rewrite (IH Hv), Hx.
Qed.

Lemma strrchr_app_sem_char (c : ascii) (p v : list ascii) :
  forallb (fun x => negb (Ascii.eqb x c)) v = true ->
  strrchr (p ++ v) c = strrchr p c.
Proof.
  intros Hv. induction p as [|x p IH]; simpl.
  - now apply strrchr_sem_char.
  - now rewrite IH.
Qed.

Lemma virgula_em_padrao (f : campo_set) : In ","%char (padrao_de f).
Proof. destruct f; cbn; tauto. Qed.

(** A line made of the pattern of a field and a value without comma: the
    pattern is at offset 0, none of the patterns tried before it occurs,
    and the text after the last comma is the value. *)
Lemma interpreta_set (f : campo_set) (v : list ascii) (s : state) :
  sem_virgula v = true ->
  interpreta (padrao_de f ++ v) s = set_cfg (grava f (atoi v) (cfg s)) s.
Proof.
  intros Hv.
  assert (Hnone : forall g, strstr v (padrao_de g) = None).
  { intros g. apply (strstr_sem_char ","%char); [apply virgula_em_padrao|exact Hv]. }
  assert (Hval : valor_str (padrao_de f ++ v) = Some v).
  { unfold valor_str. rewrite strrchr_app_sem_char by exact Hv.
    destruct f; reflexivity. }
  pose proof (Hnone HUMID) as H1. pose proof (Hnone TEMP) as H2.
  pose proof (Hnone LDR) as H3. pose proof (Hnone FOTO) as H4.
  pose proof (Hnone META_LUZ) as H5.
  unfold interpreta. rewrite Hval. clear Hval Hnone.
  cbn [padrao_de] in H1, H2, H3, H4, H5.
  unfold lit in *. cbn [list_ascii_of_string] in *.
  destruct f; cbn [padrao_de];
    cbn -[atoi atol to_uint16 to_uint32 set_cfg Z.eqb];
    rewrite ?H1, ?H2, ?H3, ?H4, ?H5; reflexivity.
Qed.

Lemma processa_set (f : campo_set) (v : list ascii) (s : state) :
  rx_inv (rx s) = true -> sem_virgula v = true ->
  c_str (g_rx_buffer (rx s)) = Some (padrao_de f ++ v) ->
  exists s',
    processa_comando s = Some s'
    /\ cfg s' = grava f (atoi v) (cfg s)
    /\ g_segundos_de_luz_hoje s' = g_segundos_de_luz_hoje s.
Proof.
  intros Hrx Hv Hcmd.
  destruct (processa_comando_spec s Hrx)
    as (cmd & s' & Hcmd' & Hs' & _ & Hcfg & Hseg & _).
  rewrite Hcmd in Hcmd'. injection Hcmd' as <-.
  rewrite (interpreta_set f v _ Hv) in Hcfg, Hseg.
  exists s'. split; [exact Hs'|]. split; assumption.
Qed.

Lemma isdigit_spec c : isdigit c = true <-> 48 <= char_code c <= 57.
Proof. unfold isdigit. rewrite andb_true_iff. lia. Qed.

Lemma digits_decimal (v : list ascii) : forall acc,
  forallb isdigit v = true ->
  digits acc v = fold_left (fun a c => 10 * a + (char_code c - 48)) v acc.
Proof.
  induction v as [|c v IH]; intros acc Hv; [reflexivity|].
  simpl in Hv. apply andb_true_iff in Hv. destruct Hv as [Hc Hv].
  simpl. rewrite Hc. apply IH, Hv.
Qed.

Lemma fold_decimal_nonneg (v : list ascii) : forall acc,
  forallb isdigit v = true -> 0 <= acc ->
  0 <= fold_left (fun a c => 10 * a + (char_code c - 48)) v acc.
Proof.
  induction v as [|c v IH]; intros acc Hv Hacc; [exact Hacc|].
  simpl in Hv. apply andb_true_iff in Hv. destruct Hv as [Hc Hv].
  apply isdigit_spec in Hc. simpl. apply IH; [exact Hv|lia].
Qed.

(** On a run of digits [atoi] is the decimal value, clamped to [LONG_MAX]. *)
Lemma atoi_decimal (v : list ascii) :
  inteiro v = true -> atoi v = Z.min LONG_MAX (valor_decimal v).
Proof.
  destruct v as [|c v]; [discriminate|]. unfold inteiro. intros Hv.
  pose proof Hv as Hv'. simpl in Hv'. apply andb_true_iff in Hv'.
  destruct Hv' as [Hc _]. apply isdigit_spec in Hc.
  unfold atoi, strtol10. cbn [skip_spaces].
  replace (isspace c) with false
    by (symmetry; unfold isspace; apply orb_false_iff; split;
        [apply Z.eqb_neq; lia|apply andb_false_iff; right; apply Z.leb_gt; lia]).
  destruct (Ascii.eqb_spec c "-") as [->|_];
    [change (char_code "-") with 45 in Hc; lia|].
  destruct (Ascii.eqb_spec c "+") as [->|_];
    [change (char_code "+") with 43 in Hc; lia|].
  rewrite digits_decimal by exact Hv. fold (valor_decimal (c :: v)).
  pose proof (fold_decimal_nonneg (c :: v) 0 Hv ltac:(lia)) as Hpos.
  fold (valor_decimal (c :: v)) in Hpos. unfold LONG_MIN, LONG_MAX. lia.
Qed.

Lemma inteiro_sem_virgula (v : list ascii) :
  inteiro v = true -> sem_virgula v = true.
Proof.
  intros Hv. assert (Hd : forallb isdigit v = true) by (destruct v; [discriminate|exact Hv]).
  clear Hv. induction v as [|c v IH]; [reflexivity|].
  simpl in Hd. apply andb_true_iff in Hd. destruct Hd as [Hc Hd].
  apply isdigit_spec in Hc. simpl. rewrite (IH Hd), andb_true_r.
  apply negb_true_iff.
  destruct (Ascii.eqb_spec c ",") as [->|_]; [|reflexivity].
  change (char_code ",") with 44 in Hc. lia.
Qed.

Lemma atoi_sem_numero (v : list ascii) : sem_numero v = true -> atoi v = 0.
Proof.
  destruct v as [|c v]; [reflexivity|].
  unfold sem_numero. rewrite !andb_true_iff, !negb_true_iff.
  intros [[[Hd Hs] Hm] Hp].
  unfold atoi, strtol10. cbn [skip_spaces]. rewrite Hs, Hm, Hp.
  cbn [digits]. rewrite Hd. reflexivity.
Qed.

(** X9. A [SET] line whose value is a run of decimal digits stores that
    number in the field it names and in no other, and leaves the light
    counter alone: the number is clamped to [LONG_MAX] by the conversion and
    then cut to the 16 bits of a setpoint (32 bits for the light goal);
    the photoperiod is enabled exactly when the 16-bit value is 1. *)
Theorem set_grava_valor_decimal (f : campo_set) (v : list ascii) (s : state) :
  rx_inv (rx s) = true -> inteiro v = true ->
  c_str (g_rx_buffer (rx s)) = Some (padrao_de f ++ v) ->
  exists s',
    processa_comando s = Some s'
    /\ cfg s' = grava f (Z.min LONG_MAX (valor_decimal v)) (cfg s)
    /\ g_segundos_de_luz_hoje s' = g_segundos_de_luz_hoje s.
Proof.
  intros Hrx Hv Hcmd.
  destruct (processa_set f v s Hrx (inteiro_sem_virgula v Hv) Hcmd)
    as (s' & Hs' & Hcfg & Hseg).
  rewrite (atoi_decimal v Hv) in Hcfg. eauto.
Qed.

Lemma set_grava_valor_decimal_witness :
  exists s',
    processa_comando (recebido "SET,HUMID,70000") = Some s'
    /\ g_umidade_setpoint_raw (cfg s') = 4464
    /\ g_temp_setpoint_raw (cfg s') = 1600.
Proof.
  destruct (set_grava_valor_decimal HUMID (lit "70000") (recebido "SET,HUMID,70000"))
    as (s' & Hs' & Hcfg & _); [calcula|calcula|calcula|].
  exists s'. split; [exact Hs'|]. rewrite Hcfg. split; calcula.
Defined.

(** X10. A [SET] line whose value is empty or starts with a character that
    is neither white space, a sign nor a digit, and holds no comma, is not
    rejected: it stores 0 in the field it names (setpoints and light goal
    become 0, the photoperiod is disabled), other fields unchanged. *)
Theorem set_sem_numero_grava_zero (f : campo_set) (v : list ascii) (s : state) :
  rx_inv (rx s) = true -> sem_numero v = true -> sem_virgula v = true ->
  c_str (g_rx_buffer (rx s)) = Some (padrao_de f ++ v) ->
  exists s',
    processa_comando s = Some s'
    /\ cfg s' = grava f 0 (cfg s)
    /\ g_segundos_de_luz_hoje s' = g_segundos_de_luz_hoje s.
Proof.
  intros Hrx Hn Hv Hcmd.
  destruct (processa_set f v s Hrx Hv Hcmd) as (s' & Hs' & Hcfg & Hseg).
  rewrite (atoi_sem_numero v Hn) in Hcfg. eauto.
Qed.

Lemma set_sem_numero_grava_zero_witness :
  exists s',
    processa_comando (recebido "SET,META_LUZ,") = Some s'
    /\ g_meta_luz_segundos (cfg s') = 0
    /\ g_umidade_setpoint_raw (cfg s') = 3000.
Proof.
  destruct (set_sem_numero_grava_zero META_LUZ [] (recebido "SET,META_LUZ,"))
    as (s' & Hs' & Hcfg & _); [calcula|calcula|calcula|calcula|].
  exists s'. split; [exact Hs'|]. rewrite Hcfg. split; calcula.
Defined.

(** ** Order of the patterns *)

(** X11. The patterns are tried in a fixed order and the first that occurs
    anywhere in the line decides: a line that contains the pattern of a
    field never changes a field later in the order
    (HUMID, TEMP, LDR, FOTO, META_LUZ), and a line that contains any [SET]
    pattern never resets the light counter, whatever else it contains. *)
Theorem primeiro_padrao_decide (s : state) :
  rx_inv (rx s) = true ->
  exists cmd s',
    c_str (g_rx_buffer (rx s)) = Some cmd
    /\ processa_comando s = Some s'
    /\ (not_null (strstr cmd (padrao_de HUMID)) = true ->
        g_temp_setpoint_raw (cfg s') = g_temp_setpoint_raw (cfg s))
    /\ (not_null (strstr cmd (padrao_de HUMID)) = true
        \/ not_null (strstr cmd (padrao_de TEMP)) = true ->
        g_ldr_limiar_raw (cfg s') = g_ldr_limiar_raw (cfg s))
    /\ (not_null (strstr cmd (padrao_de HUMID)) = true
        \/ not_null (strstr cmd (padrao_de TEMP)) = true
        \/ not_null (strstr cmd (padrao_de LDR)) = true ->
        g_fotoperiodo_ativo (cfg s') = g_fotoperiodo_ativo (cfg s))
    /\ (not_null (strstr cmd (padrao_de HUMID)) = true
        \/ not_null (strstr cmd (padrao_de TEMP)) = true
        \/ not_null (strstr cmd (padrao_de LDR)) = true
        \/ not_null (strstr cmd (padrao_de FOTO)) = true ->
        g_meta_luz_segundos (cfg s') = g_meta_luz_segundos (cfg s))
    /\ (not_null (strstr cmd (padrao_de HUMID)) = true
        \/ not_null (strstr cmd (padrao_de TEMP)) = true
        \/ not_null (strstr cmd (padrao_de LDR)) = true
        \/ not_null (strstr cmd (padrao_de FOTO)) = true
        \/ not_null (strstr cmd (padrao_de META_LUZ)) = true ->
        g_segundos_de_luz_hoje s' = g_segundos_de_luz_hoje s).
Proof.
  intros Hrx.
  destruct (processa_comando_spec s Hrx)
    as (cmd & s' & Hcmd & Hs' & _ & Hcfg & Hseg & _).
  exists cmd, s'. split; [exact Hcmd|]. split; [exact Hs'|].
  rewrite Hcfg, Hseg. unfold interpreta, padrao_de.
  destruct (not_null (strstr cmd (lit "SET,HUMID,")));
    destruct (not_null (strstr cmd (lit "SET,TEMP,")));
    destruct (not_null (strstr cmd (lit "SET,LDR,")));
    destruct (not_null (strstr cmd (lit "SET,FOTO,")));
    destruct (not_null (strstr cmd (lit "SET,META_LUZ,")));
    destruct (valor_str cmd);
    repeat split; intros; try reflexivity;
    repeat match goal with H : _ \/ _ |- _ => destruct H end;
    discriminate.
Qed.

Lemma primeiro_padrao_decide_witness :
  exists s',
    processa_comando
      (set_g_segundos_de_luz_hoje 500 (recebido "RESET,TIMER_LUZ;SET,FOTO,1"))
    = Some s'
    /\ g_segundos_de_luz_hoje s' = 500
    /\ g_fotoperiodo_ativo (cfg s') = true.
Proof.
  destruct (primeiro_padrao_decide
              (set_g_segundos_de_luz_hoje 500
                 (recebido "RESET,TIMER_LUZ;SET,FOTO,1")))
    as (cmd & s' & Hcmd & Hs' & _ & _ & _ & _ & Hseg); [calcula|].
  exists s'. split; [exact Hs'|]. split.
  - rewrite Hseg; [reflexivity|].
    vm_compute in Hcmd. injection Hcmd as <-.
    right. right. right. left. calcula.
  - vm_compute in Hs'. injection Hs' as <-. reflexivity.
Defined.

(** ** From the serial line to the configuration *)

(** What [interpreta] writes depends on the configuration and the light
    counter only. *)
Lemma interpreta_depende cmd s1 s2 :
  cfg s1 = cfg s2 -> g_segundos_de_luz_hoje s1 = g_segundos_de_luz_hoje s2 ->
  cfg (interpreta cmd s1) = cfg (interpreta cmd s2)
  /\ g_segundos_de_luz_hoje (interpreta cmd s1)
     = g_segundos_de_luz_hoje (interpreta cmd s2).
Proof.
  intros Hc Hs. unfold interpreta.
  repeat match goal with
         | |- context [if ?b then _ else _] => destruct b
         | |- context [match valor_str ?c with _ => _ end] =>
             destruct (valor_str c)
         end; simpl; rewrite ?Hc; auto.
Qed.

(** A line received from cursor 0, then a pass of the loop. *)
Lemma rx_depois_loop
  (s : state) (linha : list ascii) (t : ascii) (agora : Z) :
  inv s = true -> g_rx_idx (rx s) = 0 ->
  sem_terminador linha = true -> sem_nul linha = true ->
  linha <> [] -> (length linha <= 99)%nat -> is_terminator t = true ->
  exists s',
    run [Rx (linha ++ [t]); Loop agora] s = Some s'
    /\ cfg s' = cfg (interpreta linha s)
    /\ g_segundos_de_luz_hoje s' = g_segundos_de_luz_hoje (interpreta linha s)
    /\ g_rx_buffer (rx s') = replicate 100 NUL
    /\ g_comando_pronto (rx s') = false
    /\ g_rx_idx (rx s') = 0.
Proof.
  intros Hinv Hidx Hnt Hnul Hne Hlen Ht.
  apply inv_spec in Hinv. destruct Hinv as [_ Hrx].
  destruct (on_uart_rx_spec (linha ++ [t]) s Hrx) as (s1 & Hs1 & Hrx1 & Hfr).
  pose proof (rx_apos_inv (linha ++ [t]) _ Hrx) as Hrxinv1.
  rewrite <- Hrx1 in Hrxinv1.
  rewrite (rx_apos_linha linha t (rx s) Hrx Hidx Hnt Hne Ht) in Hrx1.
  rewrite take_ge in Hrx1 by lia.
  destruct (main_loop_spec agora s1 Hrxinv1) as (s2 & Hs2 & Hloop & _).
  destruct (processa_comando_spec s1 Hrxinv1)
    as (cmd & s2' & Hcmd & Hp & Hrx2 & Hcfg & Hseg & _).
  rewrite Hrx1 in Hs2, Hcmd, Hrx2. cbn [g_comando_pronto g_rx_buffer g_rx_idx] in *.
  rewrite Hp in Hs2. injection Hs2 as <-.
  rewrite c_str_app in Hcmd by exact Hnul. injection Hcmd as <-.
  exists (telemetria agora (atuadores s2')).
  split; [simpl; rewrite Hs1; simpl; rewrite Hloop; reflexivity|].
  destruct (telemetria_frame agora (atuadores s2')) as (_ & -> & -> & _ & -> & _).
  destruct (atuadores_spec s2') as (_ & -> & -> & _ & -> & _).
  destruct Hfr as (_ & Hc & Hsg & _).
  destruct (interpreta_depende linha (sem_pronto s1) s) as [Ec Es];
    [exact Hc|exact Hsg|].
  rewrite Hcfg, Hseg, Hrx2, Ec, Es. repeat split.
Qed.

(** X12. A line of 1 to 99 characters, none of them NUL or a terminator,
    received from cursor 0 and followed by a pass of the loop, has exactly
    the effect of interpreting that line on the configuration and the light
    counter; afterwards the buffer is all NUL, the ready flag is clear and
    the cursor is at 0, ready for the next line. *)
Theorem linha_recebida_e_interpretada
  (s : state) (linha : list ascii) (t : ascii) (agora : Z) :
  inv s = true -> g_rx_idx (rx s) = 0 ->
  sem_terminador linha = true -> sem_nul linha = true ->
  linha <> [] -> (length linha <= 99)%nat -> is_terminator t = true ->
  exists s',
    run [Rx (linha ++ [t]); Loop agora] s = Some s'
    /\ cfg s' = cfg (interpreta linha s)
    /\ g_segundos_de_luz_hoje s' = g_segundos_de_luz_hoje (interpreta linha s)
    /\ g_rx_buffer (rx s') = replicate 100 NUL
    /\ g_comando_pronto (rx s') = false
    /\ g_rx_idx (rx s') = 0.
Proof. apply rx_depois_loop. Qed.

Lemma linha_recebida_e_interpretada_witness :
  exists s',
    run [Rx (lit "SET,LDR,1800" ++ [LF]); Loop 3] main_init = Some s'
    /\ g_ldr_limiar_raw (cfg s') = 1800
    /\ g_comando_pronto (rx s') = false.
Proof.
  destruct (linha_recebida_e_interpretada main_init (lit "SET,LDR,1800") LF 3)
    as (s' & Hrun & Hcfg & _ & _ & Hp & _);
    [calcula|calcula|calcula|calcula|discriminate|vm_compute; lia|calcula|].
  exists s'. split; [exact Hrun|]. split; [rewrite Hcfg; calcula|exact Hp].
Defined.

(** X15. There is room for one pending line only: when a second line
    arrives before the loop has run, the first is overwritten and the pass
    of the loop interprets the second alone; the first has no effect at
    all. *)
Theorem segunda_linha_substitui_a_primeira
  (s : state) (linha1 linha2 : list ascii) (t1 t2 : ascii) (agora : Z) :
  inv s = true -> g_rx_idx (rx s) = 0 ->
  sem_terminador linha1 = true -> linha1 <> [] -> is_terminator t1 = true ->
  sem_terminador linha2 = true -> sem_nul linha2 = true ->
  linha2 <> [] -> (length linha2 <= 99)%nat -> is_terminator t2 = true ->
  exists s',
    run [Rx (linha1 ++ [t1]); Rx (linha2 ++ [t2]); Loop agora] s = Some s'
    /\ cfg s' = cfg (interpreta linha2 s)
    /\ g_segundos_de_luz_hoje s'
       = g_segundos_de_luz_hoje (interpreta linha2 s).
Proof.
  intros Hinv Hidx Hnt1 Hne1 Ht1 Hnt2 Hnul2 Hne2 Hlen2 Ht2.
  destruct (step_inv (Rx (linha1 ++ [t1])) s Hinv eq_refl) as (s1 & Hs1 & Hinv1).
  pose proof Hinv as Hinv0. apply inv_spec in Hinv0. destruct Hinv0 as [_ Hrx].
  destruct (on_uart_rx_spec (linha1 ++ [t1]) s Hrx) as (s1' & Hs1' & Hrx1 & Hfr).
  simpl in Hs1. rewrite Hs1' in Hs1. injection Hs1 as ->.
  rewrite (rx_apos_linha linha1 t1 (rx s) Hrx Hidx Hnt1 Hne1 Ht1) in Hrx1.
  assert (Hidx1 : g_rx_idx (rx s1) = 0) by now rewrite Hrx1.
  destruct (rx_depois_loop s1 linha2 t2 agora Hinv1 Hidx1 Hnt2 Hnul2 Hne2 Hlen2 Ht2)
    as (s' & Hrun & Hcfg & Hseg & _).
  exists s'. split.
  - change (run [Rx (linha1 ++ [t1]); Rx (linha2 ++ [t2]); Loop agora] s)
      with (s0 ← on_uart_rx (linha1 ++ [t1]) s;
            run [Rx (linha2 ++ [t2]); Loop agora] s0).
    rewrite Hs1'. exact Hrun.
  - destruct Hfr as (_ & Hc & Hsg & _).
    destruct (interpreta_depende linha2 s1 s Hc Hsg) as [Ec Es].
    rewrite Hcfg, Hseg, Ec, Es. split; reflexivity.
Qed.

Lemma segunda_linha_substitui_a_primeira_witness :
  exists s',
    run [Rx (lit "SET,HUMID,1" ++ [LF]); Rx (lit "SET,TEMP,2" ++ [LF]); Loop 3]
      main_init = Some s'
    /\ g_umidade_setpoint_raw (cfg s') = 3000
    /\ g_temp_setpoint_raw (cfg s') = 2.
Proof.
  destruct (segunda_linha_substitui_a_primeira main_init
              (lit "SET,HUMID,1") (lit "SET,TEMP,2") LF LF 3)
    as (s' & Hrun & Hcfg & _);
    [calcula|calcula|calcula|discriminate|calcula|calcula|calcula
    |discriminate|vm_compute; lia|calcula|].
  exists s'. split; [exact Hrun|]. rewrite Hcfg. split; calcula.
Defined.

(** ** Who writes what, and memory safety *)

(** X13. Each context keeps to its own variables: a timer tick never
    writes the configuration, the receive state, the outputs or the
    telemetry state; a receive interrupt writes nothing outside the receive
    state; a pass of the loop never writes the filter, the tick counter or
    the receive cursor. *)
Theorem cada_contexto_no_seu_estado (e : event) (s : state) :
  inv s = true -> event_ok e = true ->
  exists s',
    step e s = Some s'
    /\ match e with
       | Timer _ _ _ =>
           cfg s' = cfg s /\ rx s' = rx s /\ gpio s' = gpio s
           /\ ultimo_envio s' = ultimo_envio s /\ uart_tx s' = uart_tx s
       | Rx _ =>
           filt s' = filt s /\ cfg s' = cfg s
           /\ g_segundos_de_luz_hoje s' = g_segundos_de_luz_hoje s
           /\ g_contador_1s s' = g_contador_1s s /\ gpio s' = gpio s
           /\ ultimo_envio s' = ultimo_envio s /\ uart_tx s' = uart_tx s
       | Loop _ =>
           filt s' = filt s /\ g_contador_1s s' = g_contador_1s s
           /\ g_rx_idx (rx s') = g_rx_idx (rx s)
       end.
Proof.
  intros Hinv Hok. destruct e as [l n u|fifo|agora]; simpl.
  - destruct (timer_callback_spec l n u s Hinv Hok)
      as (s' & Hs' & _ & _ & _ & _ & _ & Hc & Hr & Hg & Hu & Ht & _).
    exists s'. repeat split; assumption.
  - apply inv_spec in Hinv. destruct Hinv as [_ Hrx].
    destruct (on_uart_rx_spec fifo s Hrx) as (s' & Hs' & _ & Hfr).
    exists s'. split; [exact Hs'|exact Hfr].
  - destruct (main_loop_inv agora s Hinv) as (s' & Hs' & _ & Hf & Hc & Hi).
    exists s'. repeat split; assumption.
Qed.

Lemma cada_contexto_no_seu_estado_witness :
  exists s',
    step (Timer 5 6 7) (recebido "SET,LDR,1800") = Some s'
    /\ cfg s' = cfg (recebido "SET,LDR,1800")
    /\ rx s' = rx (recebido "SET,LDR,1800").
Proof.
  destruct (cada_contexto_no_seu_estado (Timer 5 6 7) (recebido "SET,LDR,1800"))
    as (s' & Hs' & Hc & Hr & _); [calcula|calcula|].
  exists s'. split; [exact Hs'|]. split; assumption.
Defined.

Lemma c_str_length (a cmd : list ascii) :
  c_str a = Some cmd -> (length cmd < length a)%nat /\ a !! length cmd = Some NUL.
Proof.
  revert cmd. induction a as [|c a IH]; intros cmd H; [discriminate|].
  simpl in H. destruct (Ascii.eqb_spec c NUL) as [->|_].
  - injection H as <-. simpl. split; [lia|reflexivity].
  - destruct (c_str a) as [r|]; [|discriminate]. injection H as <-.
    destruct (IH r eq_refl) as [Hl Hn]. simpl. split; [lia|exact Hn].
Qed.

(** X14. No execution from the start of the loop reads or writes outside
    an array: every step is defined, the ring index stays within the 32
    cells, and the receive buffer always holds a NUL within its 100 cells,
    so that the string searches of [processa_comando] see a string of at
    most 99 characters. *)
Theorem nenhuma_execucao_sai_dos_arrays (evs : list event) :
  forallb event_ok evs = true ->
  exists s cmd,
    run evs main_init = Some s
    /\ 0 <= avg_idx (filt s) < AVG_SAMPLES
    /\ length (ldr_buffer (filt s)) = 32%nat
    /\ length (ntc_buffer (filt s)) = 32%nat
    /\ length (umidade_buffer (filt s)) = 32%nat
    /\ length (g_rx_buffer (rx s)) = 100%nat
    /\ c_str (g_rx_buffer (rx s)) = Some cmd
    /\ (length cmd <= 99)%nat.
Proof.
  intros Hok.
  destruct (run_inv evs main_init inv_main_init Hok) as (s & Hrun & Hinv).
  destruct (inv_canais s Hinv) as (Cl & Cn & Cu).
  apply canal_inv_spec in Cl, Cn, Cu.
  apply inv_spec in Hinv. destruct Hinv as [Hf Hrx].
  apply filtro_inv_spec in Hf. apply rx_inv_spec in Hrx.
  destruct Hrx as (Hlen & _ & Hlast).
  destruct (c_str_total _ _ Hlast) as [cmd Hcmd].
  destruct (c_str_length _ _ Hcmd) as [Hl _].
  exists s, cmd. unfold AVG_SAMPLES, AVG_SHIFT_BITS.
  change (Z.shiftl 1 5) with 32.
  repeat split; try tauto; try assumption; lia.
Qed.

Lemma nenhuma_execucao_sai_dos_arrays_witness :
  exists s cmd,
    run (Rx (replicate 250 "x"%char) :: exemplo_c1) main_init = Some s
    /\ c_str (g_rx_buffer (rx s)) = Some cmd
    /\ (length cmd <= 99)%nat.
Proof.
  destruct (nenhuma_execucao_sai_dos_arrays
              (Rx (replicate 250 "x"%char) :: exemplo_c1))
    as (s & cmd & Hrun & _ & _ & _ & _ & _ & Hcmd & Hl); [calcula|].
  exists s, cmd. split; [exact Hrun|]. split; assumption.
Defined.
